(** * Crawl4AI SDK: request execution core

    A shallow embedding of [src/src/errors.ts] and of the request core of
    [src/src/sdk.ts] ([request], [requestWithRetry],
    [normalizeArrayResponse]), together with a model of the SSE stream
    decoder described by the specification; then the public methods of
    the client ([crawl], [markdown], [html], [executeJs], [ask], [llm],
    [health], [testConnection], [version]), [buildQueryParams], the
    constructor and the setters [setApiToken] and [setBaseUrl]. *)

From Stdlib Require Import String Ascii List ZArith Bool Lia QArith.
Import ListNotations.
Open Scope string_scope.
Open Scope Z_scope.

Set Warnings "-register-all".

(** ** JavaScript values used by the core *)

(** A decoded JSON value, as produced by [response.json()].  Objects are
    association lists; [JSON.parse] produces objects whose own keys are
    the listed ones. *)
Inductive json :=
| JNull
| JBool (b : bool)
| JNum (n : Z)
| JStr (s : string)
| JArr (xs : list json)
| JObj (fields : list (string * json)).

(** Property lookup [o[k]] on an association list (first binding wins). *)
Fixpoint assoc {A} (k : string) (l : list (string * A)) : option A :=
  match l with
  | [] => None
  | (k', v) :: l' => if String.eqb k k' then Some v else assoc k l'
  end.

(** [responseData]: the value decoded from a response body. *)
Inductive rvalue :=
| RJson (j : json)
| RText (s : string)
| RStream. (* the raw [Response] handed back for [text/event-stream] *)

(** Result of [parseInt(s, 10)]: an integer or [NaN]. *)
Inductive jsint := JInt (z : Z) | JNaN.

(** Truthiness of a number-valued optional field ([undefined], [0] and
    [NaN] are falsy). *)
Definition truthy_int (o : option jsint) : bool :=
  match o with
  | Some (JInt z) => negb (z =? 0)
  | _ => false
  end.

(** ** Small string utilities *)

Definition digit_char (d : Z) : ascii := ascii_of_nat (48 + Z.to_nat d).

(** Decimal digits of a non-negative integer (fuel bounds the digit count). *)
Fixpoint digits_of (fuel : nat) (n : Z) (acc : string) : string :=
  match fuel with
  | O => acc
  | S f =>
      let acc' := String (digit_char (n mod 10)) acc in
      if n <? 10 then acc' else digits_of f (n / 10) acc'
  end.

(** [String(n)] for an integral number. *)
Definition z_to_string (n : Z) : string :=
  if n <? 0 then "-" ++ digits_of (Z.to_nat (Z.abs n) + 1) (Z.abs n) ""
  else digits_of (Z.to_nat n + 1) n "".

Fixpoint is_prefix (p s : string) : bool :=
  match p, s with
  | EmptyString, _ => true
  | String c p', String d s' => Ascii.eqb c d && is_prefix p' s'
  | String _ _, EmptyString => false
  end.

(** [s.includes(p)] *)
Fixpoint includes (s p : string) : bool :=
  match s with
  | EmptyString => is_prefix p s
  | String _ s' => is_prefix p s || includes s' p
  end.

(** [parseInt(s, 10)]: skip leading white space, an optional sign, then the
    longest run of decimal digits; [NaN] when there is no digit. *)
Definition is_space (c : ascii) : bool :=
  let n := nat_of_ascii c in
  (n =? 32)%nat || (n =? 9)%nat || (n =? 10)%nat || (n =? 11)%nat
  || (n =? 12)%nat || (n =? 13)%nat.

Definition digit_val (c : ascii) : option Z :=
  let n := Z.of_nat (nat_of_ascii c) in
  if (48 <=? n) && (n <=? 57) then Some (n - 48) else None.

Fixpoint skip_space (s : string) : string :=
  match s with
  | String c s' => if is_space c then skip_space s' else s
  | EmptyString => s
  end.

(** Accumulate the leading digits; [None] when the run is empty. *)
Fixpoint read_digits (s : string) (acc : option Z) : option Z :=
  match s with
  | String c s' =>
      match digit_val c with
      | Some d => read_digits s' (Some (match acc with Some a => a | None => 0 end * 10 + d))
      | None => acc
      end
  | EmptyString => acc
  end.

Definition parseInt10 (s : string) : jsint :=
  let s := skip_space s in
  let '(sign, rest) :=
    match s with
    | String "-" r => (-1, r)
    | String "+" r => (1, r)
    | _ => (1, s)
    end in
  match read_digits rest None with
  | Some z => JInt (sign * z)
  | None => JNaN
  end.

(** ** Error taxonomy ([errors.ts]) *)

(** The concrete class of an error object; [instanceof] follows the class
    hierarchy of [errors.ts]. *)
Inductive err_class :=
| CCrawl4AIError
| CNetworkError
| CTimeoutError
| CRequestValidationError
| CRateLimitError
| CAuthError
| CServerError
| CNotFoundError
| CParseError.

Definition instanceof_NetworkError (c : err_class) : bool :=
  match c with CNetworkError | CTimeoutError => true | _ => false end.

Definition instanceof_RateLimitError (c : err_class) : bool :=
  match c with CRateLimitError => true | _ => false end.

Record request_info := {
  ri_url : string;
  ri_method : string;
  ri_headers : list (string * string);
}.

(** A [Crawl4AIError] object (every class is a subclass of it). *)
Record c4err := {
  e_class : err_class;
  e_name : string;
  e_message : string;
  e_status : option Z;
  e_statusText : option string;
  e_data : option rvalue;
  e_retryAfter : option jsint;
  e_timeout : option Z;
  e_request : option request_info;
}.

(** [new Crawl4AIError(message, status?, statusText?, data?)] with the
    class and name set by the subclass constructor. *)
Definition mk_err (cls : err_class) (name message : string) (status : option Z)
    (statusText : option string) (data : option rvalue) : c4err :=
  {| e_class := cls; e_name := name; e_message := message; e_status := status;
     e_statusText := statusText; e_data := data; e_retryAfter := None;
     e_timeout := None; e_request := None |}.

Definition Crawl4AIError (message : string) (status : option Z)
    (statusText : option string) (data : option rvalue) : c4err :=
  mk_err CCrawl4AIError "Crawl4AIError" message status statusText data.

Definition NetworkError (message : string) : c4err :=
  mk_err CNetworkError "NetworkError" message None None None.

Definition TimeoutError (timeout : Z) (url : option string) : c4err :=
  let message :=
    match url with
    | Some u =>
        if String.eqb u "" then "Request timed out after " ++ z_to_string timeout ++ "ms"
        else "Request to " ++ u ++ " timed out after " ++ z_to_string timeout ++ "ms"
    | None => "Request timed out after " ++ z_to_string timeout ++ "ms"
    end in
  let e := mk_err CTimeoutError "TimeoutError" message None None None in
  {| e_class := e.(e_class); e_name := e.(e_name); e_message := e.(e_message);
     e_status := None; e_statusText := None; e_data := None;
     e_retryAfter := None; e_timeout := Some timeout; e_request := None |}.

Definition RequestValidationError (message : string) : c4err :=
  mk_err CRequestValidationError "RequestValidationError" message
    (Some 400) (Some "Bad Request") None.

Definition RateLimitError (message : string) (retryAfter : option jsint) : c4err :=
  let e := mk_err CRateLimitError "RateLimitError" message
             (Some 429) (Some "Too Many Requests") None in
  {| e_class := e.(e_class); e_name := e.(e_name); e_message := e.(e_message);
     e_status := e.(e_status); e_statusText := e.(e_statusText); e_data := None;
     e_retryAfter := retryAfter; e_timeout := None; e_request := None |}.

Definition AuthError (message : string) (status : Z) : c4err :=
  mk_err CAuthError "AuthError" message (Some status)
    (Some (if status =? 401 then "Unauthorized" else "Forbidden")) None.

Definition ServerError (message : string) (status : Z) (statusText : string) : c4err :=
  mk_err CServerError "ServerError" message (Some status)
    (Some (if String.eqb statusText "" then "Internal Server Error" else statusText))
    None.

Definition NotFoundError : c4err :=
  mk_err CNotFoundError "NotFoundError" "Resource not found"
    (Some 404) (Some "Not Found") None.

(** [createHttpError(status, statusText, message?, data?, headers?)] *)
Definition createHttpError (status : Z) (statusText : string)
    (message : option string) (data : option rvalue)
    (headers : option (list (string * string))) : c4err :=
  let errorMessage :=
    match message with
    | Some m => if String.eqb m "" then "HTTP " ++ z_to_string status ++ ": " ++ statusText else m
    | None => "HTTP " ++ z_to_string status ++ ": " ++ statusText
    end in
  if status =? 400 then RequestValidationError errorMessage
  else if status =? 401 then AuthError errorMessage 401
  else if status =? 403 then AuthError errorMessage 403
  else if status =? 404 then NotFoundError
  else if status =? 429 then
    let retryAfter :=
      match headers with
      | Some h =>
          match assoc "retry-after" h with
          | Some v => if String.eqb v "" then None else Some (parseInt10 v)
          | None => None
          end
      | None => None
      end in
    RateLimitError errorMessage retryAfter
  else if (status =? 500) || (status =? 502) || (status =? 503) || (status =? 504) then
    ServerError errorMessage status statusText
  else Crawl4AIError errorMessage (Some status) (Some statusText) data.

Example parseInt_ex1 : parseInt10 "  42abc" = JInt 42. Proof. reflexivity. Qed.
Example parseInt_ex2 : parseInt10 "soon" = JNaN. Proof. reflexivity. Qed.
Example z_to_string_ex : z_to_string 1000 = "1000". Proof. reflexivity. Qed.

(** ** Thrown values *)

(** Built-in classes of errors reaching [request]'s [catch]: a fetch abort
    is a [DOMException] named ["AbortError"], a failed connection is a
    [TypeError] ("fetch failed"), a body that is not JSON makes
    [response.json()] throw a [SyntaxError]. *)
Inductive js_class := JSError | JSTypeError | JSSyntaxError | JSDOMException.

Inductive exn :=
| EC4 (e : c4err)                              (* an instance of Crawl4AIError *)
| EJs (cls : js_class) (name message : string) (* any other Error object *)
| EValue (s : string).                         (* a thrown non-Error value *)

(** [error instanceof Error && error.name] *)
Definition error_name (e : exn) : option string :=
  match e with
  | EC4 c => Some c.(e_name)
  | EJs _ n _ => Some n
  | EValue _ => None
  end.

(** The settled (or never settling) result of an [async] call. *)
Inductive outcome :=
| Ret (v : rvalue)
| Throw (e : exn)
| Hang.

(** ** Client configuration and the transport executor ([request]) *)

Record config := {
  baseUrl : string;
  timeout : Z;
  retries : nat;
  retryDelay : Z;
  defaultHeaders : list (string * string);
  throwOnError : bool;
  validateStatus : Z -> bool;
  debug : bool;
}.

(** A fetched [Response]; header names are the lower-case names that
    [headers.get] and [headers.forEach] use.  [r_json] is what
    [response.json()] decodes, [None] when the body is not JSON. *)
Record response := {
  r_status : Z;
  r_statusText : string;
  r_headers : list (string * string);
  r_text : string;
  r_json : option json;
}.

(** An [AbortSignal], described by the time (in ms after the request
    starts) at which it is aborted, and by its [signal.reason]: the
    [AbortError] [DOMException] of [controller.abort()], the [TimeoutError]
    [DOMException] of [AbortSignal.timeout(ms)], or whatever value was
    passed to [controller.abort(reason)]. *)
Record abort_signal := { aborted_at : option Z; abort_reason : exn }.

(** What the network does with the request, absent any abort: the
    response arrives at time [t] with its body, the transport fails at
    time [t], nothing ever comes back, or the status line and headers
    arrive at time [t] while the body is received in full only at time
    [tb] ([None]: never). *)
Inductive net :=
| NetResponse (t : Z) (r : response)
| NetFail (t : Z) (e : exn)
| NetHang
| NetSlowBody (t : Z) (tb : option Z) (r : response).

(** [options : RequestInit & RequestConfig] *)
Record req_options := {
  o_method : option string;
  o_body : option string;
  o_headers : list (string * string);
  o_timeout : option Z;
  o_signal : option abort_signal;
}.

(** [FResp r]: the response with its body; [FRespBody r tb]: the response
    whose body is still to be received, in full at time [tb]; [FAbort]: the
    promise rejected by the signal, with [signal.reason]. *)
Inductive fetch_result :=
| FResp (r : response)
| FRespBody (r : response) (tb : option Z)
| FErr (e : exn)
| FAbort
| FPending.

(** [fetch(url, { signal })]: the promise rejects with the signal's
    [reason] when the signal it was given is aborted before the network
    settles it (an abort at the same instant as the response loses the
    race). *)
Definition fetch (sig : abort_signal) (n : net) : fetch_result :=
  match n, sig.(aborted_at) with
  | NetResponse t r, Some ta => if ta <? t then FAbort else FResp r
  | NetResponse _ r, None => FResp r
  | NetFail t e, Some ta => if ta <? t then FAbort else FErr e
  | NetFail _ e, None => FErr e
  | NetHang, Some _ => FAbort
  | NetHang, None => FPending
  | NetSlowBody t tb r, Some ta => if ta <? t then FAbort else FRespBody r tb
  | NetSlowBody _ tb r, None => FRespBody r tb
  end.

Definition abort_error : exn :=
  EJs JSDOMException "AbortError" "This operation was aborted".

(** Header merge [{ ...a, ...b }]: keys of [b] win. *)
Definition merge_headers (a b : list (string * string)) : list (string * string) :=
  b ++ filter (fun kv => negb (existsb (fun kv' => String.eqb (fst kv) (fst kv')) b)) a.

(** [response.headers.get('content-type') || ''] *)
Definition response_content_type (r : response) : string :=
  match assoc "content-type" r.(r_headers) with Some v => v | None => "" end.

Section Request.
Variable cfg : config.
Variable endpoint : string.
Variable opts : req_options.

Definition req_url : string := cfg.(baseUrl) ++ endpoint.

Definition req_timeout : Z :=
  match opts.(o_timeout) with Some t => t | None => cfg.(timeout) end.

Definition req_method : string :=
  match opts.(o_method) with Some m => m | None => "GET" end.

Definition requestHeaders : list (string * string) :=
  merge_headers cfg.(defaultHeaders) opts.(o_headers).

(** [const controller = new AbortController();
     setTimeout(() => controller.abort(), timeout)] *)
Definition controller_signal : abort_signal :=
  {| aborted_at := Some req_timeout; abort_reason := abort_error |}.

(** [const requestSignal = signal || controller.signal] *)
Definition requestSignal : abort_signal :=
  match opts.(o_signal) with Some s => s | None => controller_signal end.

(** The [catch (error)] block of [request]. *)
Definition request_catch (e : exn) : outcome :=
  match error_name e with
  | Some "AbortError" => Throw (EC4 (TimeoutError req_timeout (Some req_url)))
  | _ =>
      match e with
      | EJs JSTypeError _ msg =>
          if includes msg "fetch"
          then Throw (EC4 (NetworkError ("Network request failed: " ++ msg)))
          else Throw e
      | _ => Throw e
      end
  end.

(** Status validation on the decoded [responseData]. *)
Definition check_status (r : response) (responseData : rvalue) : outcome :=
  if negb (cfg.(validateStatus) r.(r_status)) then
    let e := createHttpError r.(r_status) r.(r_statusText) None
               (Some responseData) (Some r.(r_headers)) in
    let error :=
      {| e_class := e.(e_class); e_name := e.(e_name); e_message := e.(e_message);
         e_status := e.(e_status); e_statusText := e.(e_statusText);
         e_data := e.(e_data); e_retryAfter := e.(e_retryAfter);
         e_timeout := e.(e_timeout);
         e_request := Some {| ri_url := req_url; ri_method := req_method;
                              ri_headers := requestHeaders |} |} in
    if cfg.(throwOnError) then request_catch (EC4 error) else Ret responseData
  else Ret responseData.

(** The body of the [try] once [fetch] has resolved. *)
Definition handle_response (r : response) : outcome :=
  let contentType := response_content_type r in
  if includes contentType "application/json" then
    match r.(r_json) with
    | Some j => check_status r (RJson j)
    | None => request_catch (EJs JSSyntaxError "SyntaxError" "Unexpected token")
    end
  else if includes contentType "text/html" || includes contentType "text/plain" then
    check_status r (RText r.(r_text))
  else if includes contentType "text/event-stream" then
    Ret RStream
  else check_status r (RText r.(r_text)).

(** The branch of [handle_response] that returns [response.body] without
    reading it. *)
Definition returns_stream (r : response) : bool :=
  let contentType := response_content_type r in
  negb (includes contentType "application/json")
  && negb (includes contentType "text/html" || includes contentType "text/plain")
  && includes contentType "text/event-stream".

(** [clearTimeout(timeoutId)] runs as soon as [fetch] resolves, so while
    [await response.json()] or [await response.text()] waits for a body
    due at [tb], only a caller signal can still abort; the read then
    rejects with that signal's [reason]. *)
Definition body_abort_at : option Z :=
  match opts.(o_signal) with Some s => aborted_at s | None => None end.

Definition read_body (tb : option Z) (k : outcome) : outcome :=
  match tb, body_abort_at with
  | Some b, Some ta => if ta <? b then request_catch (abort_reason requestSignal) else k
  | Some _, None => k
  | None, Some _ => request_catch (abort_reason requestSignal)
  | None, None => Hang
  end.

Definition handle_slow_body (r : response) (tb : option Z) : outcome :=
  if returns_stream r then Ret RStream else read_body tb (handle_response r).

Definition request (n : net) : outcome :=
  match fetch requestSignal n with
  | FResp r => handle_response r
  | FRespBody r tb => handle_slow_body r tb
  | FErr e => request_catch e
  | FAbort => request_catch (abort_reason requestSignal)
  | FPending => Hang
  end.
End Request.

(** ** The retry coordinator ([requestWithRetry]) *)

Inductive ev :=
| Attempt (a : nat)   (* one call of [this.request] *)
| Sleep (ms : Z).     (* [await new Promise(r => setTimeout(r, delay))] *)

Definition CLIENT_ERROR_MIN := 400.
Definition CLIENT_ERROR_MAX := 500.
Definition RATE_LIMIT_STATUS := 429.
Definition RETRY_BACKOFF_MULTIPLIER := 2.

(** The guard [error instanceof Crawl4AIError && error.status && ...]. *)
Definition no_retry (e : exn) : bool :=
  match e with
  | EC4 c =>
      match c.(e_status) with
      | Some s => negb (s =? 0) && (CLIENT_ERROR_MIN <=? s) && (s <? CLIENT_ERROR_MAX)
                  && negb (s =? RATE_LIMIT_STATUS)
      | None => false
      end
  | _ => false
  end.

Definition backoff (cfg : config) (attempt : nat) : Z :=
  cfg.(retryDelay) * RETRY_BACKOFF_MULTIPLIER ^ Z.of_nat attempt.

(** [delay], with the override for [RateLimitError] with a truthy
    [retryAfter]. *)
Definition retry_delay (cfg : config) (e : exn) (attempt : nat) : Z :=
  match e with
  | EC4 c =>
      if instanceof_RateLimitError c.(e_class) && truthy_int c.(e_retryAfter) then
        match c.(e_retryAfter) with
        | Some (JInt ra) => ra * 1000
        | _ => backoff cfg attempt
        end
      else backoff cfg attempt
  | _ => backoff cfg attempt
  end.

Section Retry.
Variable cfg : config.
(** [run a]: the outcome of the [a]-th call of [this.request(endpoint, options)]. *)
Variable run : nat -> outcome.

(** The [for] loop from [attempt] on, with [n] iterations left. *)
Fixpoint retry_loop (n attempt : nat) (lastError : exn) : list ev * outcome :=
  match n with
  | O => ([], Throw lastError)
  | S n' =>
      match run attempt with
      | Ret v => ([Attempt attempt], Ret v)
      | Hang => ([Attempt attempt], Hang)
      | Throw e =>
          if no_retry e then ([Attempt attempt], Throw e)
          else
            let sl := if (attempt <? cfg.(retries))%nat
                      then [Sleep (retry_delay cfg e attempt)] else [] in
            let '(tr, o) := retry_loop n' (S attempt) e in
            (Attempt attempt :: sl ++ tr, o)
      end
  end.

Definition requestWithRetry : list ev * outcome :=
  retry_loop (S cfg.(retries)) 0 (EJs JSError "Error" "No attempts made").
End Retry.

Definition is_attempt (x : ev) : bool := match x with Attempt _ => true | _ => false end.
Definition attempts (tr : list ev) : nat := length (filter is_attempt tr).
Fixpoint sleeps (tr : list ev) : list Z :=
  match tr with
  | [] => []
  | Sleep d :: tr' => d :: sleeps tr'
  | _ :: tr' => sleeps tr'
  end.

(** ** Response normalizer *)

Definition has_key (k : string) (fs : list (string * json)) : bool :=
  match assoc k fs with Some _ => true | None => false end.

(** [isApiArrayResponse]: a non-null object with a [results] or [result] key. *)
Definition isApiArrayResponse (v : json) : bool :=
  match v with
  | JObj fs => has_key "results" fs || has_key "result" fs
  | _ => false
  end.

Definition normalizeArrayResponse (response : json) : json :=
  match response with
  | JArr _ => response
  | _ =>
      let fallback := JArr [response] in
      if isApiArrayResponse response then
        match response with
        | JObj fs =>
            match assoc "results" fs with
            | Some (JArr xs) => JArr xs
            | _ =>
                match assoc "result" fs with
                | Some (JArr xs) => JArr xs
                | _ => fallback
                end
            end
        | _ => fallback
        end
      else fallback
  end.

(** ** Concrete configurations and responses *)

Definition default_validateStatus (status : Z) : bool := status <? CLIENT_ERROR_MIN.

Definition mk_config (retries_ : nat) (retryDelay_ : Z) (throw_ : bool) : config :=
  {| baseUrl := "http://localhost:11235"; timeout := 300000; retries := retries_;
     retryDelay := retryDelay_;
     defaultHeaders := [("Content-Type", "application/json")];
     throwOnError := throw_; validateStatus := default_validateStatus;
     debug := false |}.

Definition no_options : req_options :=
  {| o_method := None; o_body := None; o_headers := []; o_timeout := None;
     o_signal := None |}.

Definition json_response (status : Z) (statusText : string) (body : json)
    (extra : list (string * string)) : response :=
  {| r_status := status; r_statusText := statusText;
     r_headers := ("content-type", "application/json") :: extra;
     r_text := ""; r_json := Some body |}.

(** [instanceof Crawl4AIError] *)
Definition classified (e : exn) : bool :=
  match e with EC4 _ => true | _ => false end.

(** ** Retry coordinator: all attempts failing *)

Section RetryLemmas.
Variable cfg : config.

(** The trace of [n] consecutive failing attempts from [attempt] on. *)
Fixpoint fail_trace (f : nat -> exn) (n attempt : nat) : list ev :=
  match n with
  | O => []
  | S n' =>
      Attempt attempt
        :: (if (attempt <? cfg.(retries))%nat
            then [Sleep (retry_delay cfg (f attempt) attempt)] else [])
        ++ fail_trace f n' (S attempt)
  end.

Definition last_error (f : nat -> exn) (n attempt : nat) (le : exn) : exn :=
  match n with O => le | S n' => f (attempt + n')%nat end.

Lemma retry_loop_all_fail (run : nat -> outcome) (f : nat -> exn) :
  forall n attempt le,
    (forall a, (attempt <= a < attempt + n)%nat ->
               run a = Throw (f a) /\ no_retry (f a) = false) ->
    retry_loop cfg run n attempt le
    = (fail_trace f n attempt, Throw (last_error f n attempt le)).
Proof.
  induction n as [|n IH]; intros attempt le Hrun; [reflexivity|].
  simpl. destruct (Hrun attempt) as [Ha Hnr]; [lia|].
  rewrite Ha, Hnr.
  rewrite (IH (S attempt) (f attempt)).
  - f_equal. f_equal. destruct n as [|n]; simpl.
    + rewrite Nat.add_0_r. reflexivity.
    + f_equal. lia.
  - intros a Ha'. apply Hrun. lia.
Qed.

Lemma attempts_app (l1 l2 : list ev) :
  attempts (l1 ++ l2)%list = (attempts l1 + attempts l2)%nat.
Proof. unfold attempts. rewrite filter_app, length_app. reflexivity. Qed.

Lemma sleeps_app (l1 l2 : list ev) : sleeps (l1 ++ l2)%list = (sleeps l1 ++ sleeps l2)%list.
Proof.
  induction l1 as [|x l1 IH]; [reflexivity|]. destruct x; simpl; rewrite IH; reflexivity.
Qed.

Lemma fail_trace_attempts (f : nat -> exn) :
  forall n attempt, attempts (fail_trace f n attempt) = n.
Proof.
  induction n as [|n IH]; intros attempt; [reflexivity|].
  simpl fail_trace. change (Attempt attempt :: ?l) with ([Attempt attempt] ++ l)%list.
  rewrite !attempts_app, IH.
  destruct (attempt <? retries cfg)%nat; reflexivity.
Qed.

Lemma fail_trace_sleeps (f : nat -> exn) :
  forall n attempt,
    sleeps (fail_trace f n attempt)
    = map (fun a => retry_delay cfg (f a) a)
          (filter (fun a => (a <? cfg.(retries))%nat) (seq attempt n)).
Proof.
  induction n as [|n IH]; intros attempt; [reflexivity|].
  simpl. rewrite sleeps_app, IH.
  destruct (attempt <? retries cfg)%nat; reflexivity.
Qed.

Lemma filter_lt_seq (r : nat) :
  forall n st, (st + n <= r)%nat ->
    filter (fun a => (a <? r)%nat) (seq st n) = seq st n.
Proof.
  induction n as [|n IH]; intros st Hle; [reflexivity|].
  simpl. replace (st <? r)%nat with true by (symmetry; apply Nat.ltb_lt; lia).
  rewrite IH by lia. reflexivity.
Qed.

Lemma filter_lt_seq_S (r : nat) :
  filter (fun a => (a <? r)%nat) (seq 0 (S r)) = seq 0 r.
Proof.
  rewrite seq_S, filter_app, filter_lt_seq by lia. simpl.
  rewrite Nat.ltb_irrefl, app_nil_r. reflexivity.
Qed.
End RetryLemmas.

(** ** Retry coordinator: claims *)

Lemma not_classified_no_retry (e : exn) : classified e = false -> no_retry e = false.
Proof. destruct e; simpl; congruence. Qed.

Lemma retry_delay_unclassified (cfg : config) (e : exn) (a : nat) :
  classified e = false -> retry_delay cfg e a = backoff cfg a.
Proof. destruct e; simpl; congruence. Qed.

Definition plain_error : exn := EJs JSError "Error" "boom".

(** C1 (counterexample): a plain [Error] thrown by every attempt is
    retried: with [retries = 3] and [retryDelay = 1000] the coordinator
    makes four attempts and sleeps three times, not one attempt. *)
Lemma C1_plain_error_is_retried :
  let tr := fst (requestWithRetry (mk_config 3 1000 true) (fun _ => Throw plain_error)) in
  attempts tr = 4%nat /\ attempts tr <> 1%nat /\ sleeps tr = [1000; 2000; 4000].
Proof. vm_compute. split; [reflexivity | split; [discriminate | reflexivity]]. Qed.

(** C1 (amended): when every attempt throws an error that is not an
    instance of [Crawl4AIError], [requestWithRetry] treats it like a
    transient failure: it makes [retries + 1] attempts, sleeps
    [retryDelay * 2^a] after each failed attempt [a < retries], and then
    rethrows the last error. *)
Theorem requestWithRetry_retries_unclassified (cfg : config) (run : nat -> outcome)
    (f : nat -> exn)
    (Hrun : forall a, (a <= retries cfg)%nat -> run a = Throw (f a))
    (Hf : forall a, classified (f a) = false) :
  requestWithRetry cfg run
    = (fail_trace cfg f (S (retries cfg)) 0, Throw (f (retries cfg)))
  /\ attempts (fst (requestWithRetry cfg run)) = S (retries cfg)
  /\ sleeps (fst (requestWithRetry cfg run)) = map (backoff cfg) (seq 0 (retries cfg)).
Proof.
  assert (H : requestWithRetry cfg run
              = (fail_trace cfg f (S (retries cfg)) 0, Throw (f (retries cfg)))).
  { unfold requestWithRetry. rewrite (retry_loop_all_fail cfg run f).
    - reflexivity.
    - intros a Ha. split; [apply Hrun; lia | apply not_classified_no_retry, Hf]. }
  split; [exact H|]. rewrite H. cbn [fst]. split.
  - apply fail_trace_attempts.
  - rewrite fail_trace_sleeps, filter_lt_seq_S. apply map_ext.
    intros a. apply retry_delay_unclassified, Hf.
Qed.

Lemma requestWithRetry_retries_unclassified_witness :
  requestWithRetry (mk_config 2 500 true) (fun _ => Throw plain_error)
    = (fail_trace (mk_config 2 500 true) (fun _ => plain_error) 3 0, Throw plain_error)
  /\ attempts (fst (requestWithRetry (mk_config 2 500 true) (fun _ => Throw plain_error))) = 3%nat
  /\ sleeps (fst (requestWithRetry (mk_config 2 500 true) (fun _ => Throw plain_error)))
     = map (backoff (mk_config 2 500 true)) (seq 0 2).
Proof.
  apply (requestWithRetry_retries_unclassified (mk_config 2 500 true)
           (fun _ => Throw plain_error) (fun _ => plain_error)).
  - intros a _. reflexivity.
  - intros a. reflexivity.
Defined.

(** C3: with [retries = 3], [retryDelay = 1000] and every attempt failing
    with a retryable classified error that is not a rate-limit error (as a
    persistent HTTP 500 gives), the coordinator makes exactly four attempts
    with sleeps of 1000, 2000 and 4000 ms between them and rethrows the
    last error; with [retries = 0] it makes exactly one attempt and never
    sleeps. *)
Theorem requestWithRetry_schedule :
  (forall (cfg : config) (run : nat -> outcome) (f : nat -> c4err),
     retries cfg = 3%nat -> retryDelay cfg = 1000 ->
     (forall a, run a = Throw (EC4 (f a))) ->
     (forall a, no_retry (EC4 (f a)) = false) ->
     (forall a, instanceof_RateLimitError (e_class (f a)) = false) ->
     requestWithRetry cfg run
       = ([Attempt 0; Sleep 1000; Attempt 1; Sleep 2000; Attempt 2; Sleep 4000; Attempt 3],
          Throw (EC4 (f 3%nat))))
  /\ (forall (cfg : config) (run : nat -> outcome),
        retries cfg = 0%nat ->
        attempts (fst (requestWithRetry cfg run)) = 1%nat
        /\ sleeps (fst (requestWithRetry cfg run)) = []).
Proof.
  split.
  - intros cfg run f Hr Hd Hrun Hnr Hrl.
    unfold requestWithRetry.
    rewrite (retry_loop_all_fail cfg run (fun a => EC4 (f a))).
    + rewrite Hr. simpl. rewrite Hr. simpl.
      unfold retry_delay. rewrite !Hrl. simpl. unfold backoff. rewrite Hd. reflexivity.
    + intros a _. split; [apply Hrun | apply Hnr].
  - intros cfg run Hr. unfold requestWithRetry. rewrite Hr. simpl.
    destruct (run 0%nat) as [v|e|]; simpl; [auto|..|auto].
    destruct (no_retry e); simpl; [auto|]. rewrite Hr. simpl. auto.
Qed.

Definition cfg3 : config := mk_config 3 1000 true.

Definition resp500 : response := json_response 500 "Internal Server Error" (JObj [("detail", JStr "boom")]) [].

(** A persistent HTTP 500: every attempt of [request] gets this response. *)
Definition run500 (_ : nat) : outcome := request cfg3 "/crawl" no_options (NetResponse 10 resp500).

Definition err500 : c4err :=
  match run500 0 with Throw (EC4 c) => c | _ => NotFoundError end.

Example err500_is_server_error :
  run500 0 = Throw (EC4 err500) /\ e_class err500 = CServerError /\ e_status err500 = Some 500.
Proof. vm_compute. auto. Qed.

Lemma requestWithRetry_schedule_witness :
  requestWithRetry cfg3 run500
    = ([Attempt 0; Sleep 1000; Attempt 1; Sleep 2000; Attempt 2; Sleep 4000; Attempt 3],
       Throw (EC4 err500))
  /\ attempts (fst (requestWithRetry (mk_config 0 1000 true) run500)) = 1%nat
  /\ sleeps (fst (requestWithRetry (mk_config 0 1000 true) run500)) = [].
Proof.
  split.
  - apply (proj1 requestWithRetry_schedule cfg3 run500 (fun _ => err500));
      [reflexivity | reflexivity | intros a; vm_compute; reflexivity
      | intros a; vm_compute; reflexivity | intros a; vm_compute; reflexivity].
  - apply (proj2 requestWithRetry_schedule (mk_config 0 1000 true) run500). reflexivity.
Defined.

(** A 429 response whose [retry-after] header is ["0"]. *)
Definition resp429_zero : response :=
  json_response 429 "Too Many Requests" JNull [("retry-after", "0")].

Definition run429_zero (a : nat) : outcome :=
  match a with
  | O => request cfg3 "/crawl" no_options (NetResponse 10 resp429_zero)
  | S _ => Ret (RJson (JArr []))
  end.

(** C4 (counterexample): a 429 response with [retry-after: 0] yields a
    [RateLimitError] whose [retryAfter] is the known value 0, yet the delay
    before the next attempt is the exponential 1000 ms, not 0 * 1000. *)
Lemma C4_retry_after_zero_uses_backoff :
  (exists c, run429_zero 0 = Throw (EC4 c)
             /\ e_class c = CRateLimitError /\ e_retryAfter c = Some (JInt 0))
  /\ sleeps (fst (requestWithRetry cfg3 run429_zero)) = [1000]
  /\ sleeps (fst (requestWithRetry cfg3 run429_zero)) <> [0 * 1000].
Proof.
  split.
  - eexists. vm_compute. split; [reflexivity | split; reflexivity].
  - vm_compute. split; [reflexivity | discriminate].
Qed.

(** C4 (amended): after a retry-eligible failure [e] at attempt [a] with
    attempts remaining, the coordinator sleeps [retry_delay] and then makes
    the next attempt; that delay is [R * 1000] when [e] is a
    [RateLimitError] whose [retryAfter] is a nonzero integer [R], and
    [retryDelay * 2^a] in every other case (any other error, or a
    rate-limit error whose retry-after is absent, [NaN] or 0). *)
Theorem retry_delay_schedule (cfg : config) (run : nat -> outcome) (n attempt : nat)
    (le e : exn)
    (Hrun : run attempt = Throw e) (Hnr : no_retry e = false)
    (Hlt : (attempt < retries cfg)%nat) :
  (exists tr o, retry_loop cfg run (S n) attempt le
                = (Attempt attempt :: Sleep (retry_delay cfg e attempt) :: tr, o))
  /\ (forall c R, e = EC4 c -> instanceof_RateLimitError (e_class c) = true ->
        e_retryAfter c = Some (JInt R) -> R <> 0 ->
        retry_delay cfg e attempt = R * 1000)
  /\ ((forall c, e = EC4 c -> instanceof_RateLimitError (e_class c) = false
                           \/ truthy_int (e_retryAfter c) = false) ->
      retry_delay cfg e attempt = retryDelay cfg * 2 ^ Z.of_nat attempt).
Proof.
  split; [|split].
  - simpl. rewrite Hrun, Hnr. apply Nat.ltb_lt in Hlt. rewrite Hlt.
    destruct (retry_loop cfg run n (S attempt) e) as [tr o].
    exists tr, o. reflexivity.
  - intros c R -> Hrl Hra HR. unfold retry_delay. rewrite Hrl, Hra. simpl.
    apply Z.eqb_neq in HR. rewrite HR. reflexivity.
  - intros Hother. unfold retry_delay. destruct e as [c| |]; try reflexivity.
    destruct (Hother c eq_refl) as [H|H]; rewrite H; [reflexivity|].
    rewrite andb_false_r. reflexivity.
Qed.

Definition rate_limited_7 : c4err := RateLimitError "HTTP 429: Too Many Requests" (Some (JInt 7)).

Lemma retry_delay_schedule_witness :
  (exists tr o, retry_loop cfg3 (fun _ => Throw (EC4 rate_limited_7)) 4 0 plain_error
                = (Attempt 0 :: Sleep (retry_delay cfg3 (EC4 rate_limited_7) 0) :: tr, o))
  /\ (forall c R, EC4 rate_limited_7 = EC4 c -> instanceof_RateLimitError (e_class c) = true ->
        e_retryAfter c = Some (JInt R) -> R <> 0 ->
        retry_delay cfg3 (EC4 rate_limited_7) 0 = R * 1000)
  /\ ((forall c, EC4 rate_limited_7 = EC4 c -> instanceof_RateLimitError (e_class c) = false
                           \/ truthy_int (e_retryAfter c) = false) ->
      retry_delay cfg3 (EC4 rate_limited_7) 0 = retryDelay cfg3 * 2 ^ Z.of_nat 0).
Proof.
  apply (retry_delay_schedule cfg3 (fun _ => Throw (EC4 rate_limited_7)) 3 0
           plain_error (EC4 rate_limited_7)); [reflexivity | reflexivity | simpl; lia].
Defined.

(** C5: a classified failure whose status [s] satisfies [400 <= s < 500]
    and [s <> 429] stops the coordinator at the attempt that raised it: the
    error is rethrown with no sleep and no further attempt; in particular a
    first attempt failing so gives exactly one attempt. *)
Theorem requestWithRetry_client_error_no_retry :
  (forall (cfg : config) (run : nat -> outcome) (n attempt : nat) (le : exn) (c : c4err) (s : Z),
     run attempt = Throw (EC4 c) -> e_status c = Some s ->
     400 <= s < 500 -> s <> 429 ->
     retry_loop cfg run (S n) attempt le = ([Attempt attempt], Throw (EC4 c)))
  /\ (forall (cfg : config) (run : nat -> outcome) (c : c4err) (s : Z),
        run 0%nat = Throw (EC4 c) -> e_status c = Some s ->
        400 <= s < 500 -> s <> 429 ->
        requestWithRetry cfg run = ([Attempt 0], Throw (EC4 c))
        /\ attempts (fst (requestWithRetry cfg run)) = 1%nat
        /\ sleeps (fst (requestWithRetry cfg run)) = []).
Proof.
  assert (Hloop : forall (cfg : config) (run : nat -> outcome) (n attempt : nat) (le : exn)
                         (c : c4err) (s : Z),
     run attempt = Throw (EC4 c) -> e_status c = Some s ->
     400 <= s < 500 -> s <> 429 ->
     retry_loop cfg run (S n) attempt le = ([Attempt attempt], Throw (EC4 c))).
  { intros cfg run n attempt le c s Hrun Hs Hr H429. simpl. rewrite Hrun.
    assert (Hnr : no_retry (EC4 c) = true).
    { unfold no_retry, CLIENT_ERROR_MIN, CLIENT_ERROR_MAX, RATE_LIMIT_STATUS. rewrite Hs.
      assert ((s =? 0) = false) by (apply Z.eqb_neq; lia).
      assert ((s =? 429) = false) by (apply Z.eqb_neq; lia).
      assert ((400 <=? s) = true) by (apply Z.leb_le; lia).
      assert ((s <? 500) = true) by (apply Z.ltb_lt; lia).
      rewrite H, H0, H1, H2. reflexivity. }
    rewrite Hnr. reflexivity. }
  split; [exact Hloop|].
  intros cfg run c s Hrun Hs Hr H429.
  assert (H : requestWithRetry cfg run = ([Attempt 0], Throw (EC4 c)))
    by (apply (Hloop cfg run (retries cfg) 0%nat (EJs JSError "Error" "No attempts made") c s);
        assumption).
  rewrite H. auto.
Qed.

Definition run404 (_ : nat) : outcome :=
  request cfg3 "/crawl" no_options (NetResponse 10 (json_response 404 "Not Found" JNull [])).

Definition err404 : c4err :=
  match run404 0 with Throw (EC4 c) => c | _ => err500 end.

Lemma requestWithRetry_client_error_no_retry_witness :
  retry_loop cfg3 run404 3 1 plain_error = ([Attempt 1], Throw (EC4 err404))
  /\ (requestWithRetry cfg3 run404 = ([Attempt 0], Throw (EC4 err404))
      /\ attempts (fst (requestWithRetry cfg3 run404)) = 1%nat
      /\ sleeps (fst (requestWithRetry cfg3 run404)) = []).
Proof.
  split.
  - apply (proj1 requestWithRetry_client_error_no_retry cfg3 run404 2%nat 1%nat plain_error err404 404);
      [vm_compute; reflexivity | vm_compute; reflexivity | lia | lia].
  - apply (proj2 requestWithRetry_client_error_no_retry cfg3 run404 err404 404);
      [vm_compute; reflexivity | vm_compute; reflexivity | lia | lia].
Defined.

(** ** Transport executor with [throwOnError = false] *)

(** C2 (counterexample): with [throwOnError = false] a 500 response that
    fails [validateStatus] makes [request] resolve to the decoded body, not
    to the classified error built by [createHttpError]. *)
Lemma C2_swallowed_error_returns_body :
  validateStatus (mk_config 3 1000 false) 500 = false
  /\ request (mk_config 3 1000 false) "/crawl" no_options (NetResponse 10 resp500)
     = Ret (RJson (JObj [("detail", JStr "boom")]))
  /\ request cfg3 "/crawl" no_options (NetResponse 10 resp500) = Throw (EC4 err500).
Proof. vm_compute. auto. Qed.

(** C2 (amended): with [throwOnError = false], when a response fails the
    status-validation predicate, [request] resolves to the decoded response
    body itself (the JSON value for a JSON body, the raw text for a non-JSON,
    non-stream body); the classified error is built and dropped. *)
Theorem request_no_throw_returns_body (cfg : config) (endpoint : string)
    (opts : req_options) (n : net) (r : response)
    (Hno : throwOnError cfg = false)
    (Hfail : validateStatus cfg (r_status r) = false)
    (Hf : fetch (requestSignal cfg opts) n = FResp r) :
  (forall j, includes (response_content_type r) "application/json" = true ->
             r_json r = Some j ->
             request cfg endpoint opts n = Ret (RJson j))
  /\ (includes (response_content_type r) "application/json" = false ->
      includes (response_content_type r) "text/event-stream" = false ->
      request cfg endpoint opts n = Ret (RText (r_text r))).
Proof.
  unfold request. rewrite Hf. unfold handle_response, check_status.
  rewrite Hfail, Hno. simpl. split.
  - intros j Hj Hb. rewrite Hj, Hb. reflexivity.
  - intros Hj Hs. rewrite Hj, Hs.
    destruct (includes (response_content_type r) "text/html"
              || includes (response_content_type r) "text/plain"); reflexivity.
Qed.

Lemma request_no_throw_returns_body_witness :
  (forall j, includes (response_content_type resp500) "application/json" = true ->
             r_json resp500 = Some j ->
             request (mk_config 3 1000 false) "/crawl" no_options (NetResponse 10 resp500)
             = Ret (RJson j))
  /\ (includes (response_content_type resp500) "application/json" = false ->
      includes (response_content_type resp500) "text/event-stream" = false ->
      request (mk_config 3 1000 false) "/crawl" no_options (NetResponse 10 resp500)
      = Ret (RText (r_text resp500))).
Proof.
  apply (request_no_throw_returns_body (mk_config 3 1000 false) "/crawl" no_options
           (NetResponse 10 resp500) resp500); vm_compute; reflexivity.
Defined.

(** ** Error classification ([createHttpError]) *)

(** C6 (counterexample): status 501 is in the 5xx range, for which
    [ServerError] is documented, but is classified as a generic
    [Crawl4AIError], not as a [ServerError]. *)
Lemma C6_status_501_is_generic :
  e_class (createHttpError 501 "Not Implemented" None None None) = CCrawl4AIError
  /\ e_class (createHttpError 501 "Not Implemented" None None None) <> CServerError.
Proof. vm_compute. split; [reflexivity | discriminate]. Qed.

Definition is_mapped_status (s : Z) : bool :=
  existsb (Z.eqb s) [400; 401; 403; 404; 429; 500; 502; 503; 504].

(** C6 (what the code does): [createHttpError] is total and maps 400 to
    [RequestValidationError], 401 and 403 to [AuthError], 404 to
    [NotFoundError], 429 to [RateLimitError] whose [retryAfter] is
    [parseInt] of a non-empty [retry-after] header and undefined without
    one, exactly 500, 502, 503 and 504 to [ServerError], and every other
    status (501 and 505-599 included) to a generic [Crawl4AIError] that
    keeps the status, the status text and the body. *)
Theorem createHttpError_mapping (status : Z) (statusText : string)
    (message : option string) (data : option rvalue)
    (headers : option (list (string * string))) :
  let e := createHttpError status statusText message data headers in
  (status = 400 -> e_class e = CRequestValidationError /\ e_status e = Some 400)
  /\ (status = 401 \/ status = 403 -> e_class e = CAuthError /\ e_status e = Some status)
  /\ (status = 404 -> e_class e = CNotFoundError /\ e_status e = Some 404)
  /\ (status = 429 ->
      e_class e = CRateLimitError /\ e_status e = Some 429
      /\ (forall h v, headers = Some h -> assoc "retry-after" h = Some v -> v <> "" ->
                      e_retryAfter e = Some (parseInt10 v))
      /\ ((forall h, headers = Some h -> assoc "retry-after" h = None
                                         \/ assoc "retry-after" h = Some "") ->
          e_retryAfter e = None))
  /\ (status = 500 \/ status = 502 \/ status = 503 \/ status = 504 ->
      e_class e = CServerError /\ e_status e = Some status)
  /\ (is_mapped_status status = false ->
      e_class e = CCrawl4AIError /\ e_status e = Some status
      /\ e_statusText e = Some statusText /\ e_data e = data).
Proof.
  cbv zeta. repeat split; intros.
  all: repeat match goal with H : _ \/ _ |- _ => destruct H end.
  all: try (subst status; reflexivity).
  all: try (unfold is_mapped_status in H; simpl in H; rewrite !orb_false_iff in H;
      destruct H as (H1 & H2 & H3 & H4 & H5 & H6 & H7 & H8 & H9 & _);
      unfold createHttpError; rewrite H1, H2, H4, H3, H5, H6, H7, H8, H9; reflexivity).
  - subst status headers. simpl. rewrite H1. apply String.eqb_neq in H2. rewrite H2. reflexivity.
  - subst status. simpl. destruct headers as [h|]; [|reflexivity].
    destruct (H0 h eq_refl) as [Ha|Ha]; rewrite Ha; reflexivity.
Qed.

Lemma createHttpError_mapping_witness :
  e_retryAfter (createHttpError 429 "Too Many Requests" None None (Some [("retry-after", "30")]))
    = Some (parseInt10 "30")
  /\ e_class (createHttpError 501 "Not Implemented" None (Some (RText "nope")) None)
     = CCrawl4AIError
  /\ e_data (createHttpError 501 "Not Implemented" None (Some (RText "nope")) None)
     = Some (RText "nope").
Proof.
  destruct (createHttpError_mapping 429 "Too Many Requests" None None
              (Some [("retry-after", "30")])) as (_ & _ & _ & H429 & _).
  destruct (createHttpError_mapping 501 "Not Implemented" None (Some (RText "nope")) None)
    as (_ & _ & _ & _ & _ & Hgen).
  destruct (H429 eq_refl) as (_ & _ & Hra & _).
  destruct (Hgen eq_refl) as (Hc & _ & _ & Hd).
  split; [apply (Hra [("retry-after", "30")] "30"); [reflexivity | reflexivity | discriminate] | split; assumption].
Defined.

(** ** Response normalizer *)

(** The normalization rule as the specification words it, to be compared
    with [normalizeArrayResponse]. *)
Definition array_property (k : string) (v : json) : option (list json) :=
  match v with
  | JObj fs => match assoc k fs with Some (JArr xs) => Some xs | _ => None end
  | _ => None
  end.

Definition normalize_spec (v : json) : json :=
  match v with
  | JArr _ => v
  | _ =>
      match array_property "results" v with
      | Some xs => JArr xs
      | None =>
          match array_property "result" v with
          | Some xs => JArr xs
          | None => JArr [v]
          end
      end
  end.

(** C7: [normalizeArrayResponse] follows the priority rule exactly: an
    array is returned as is, then an array [results] property, then an
    array [result] property, otherwise the value wrapped in a one-element
    array; in particular on the four examples of the specification. *)
Theorem normalizeArrayResponse_rule :
  (forall v, normalizeArrayResponse v = normalize_spec v)
  /\ normalizeArrayResponse (JObj [("results", JArr [JNum 1; JNum 2])]) = JArr [JNum 1; JNum 2]
  /\ normalizeArrayResponse (JObj [("result", JArr [JNum 1; JNum 2])]) = JArr [JNum 1; JNum 2]
  /\ normalizeArrayResponse (JArr [JNum 1; JNum 2]) = JArr [JNum 1; JNum 2]
  /\ normalizeArrayResponse (JObj [("foo", JNum 1)]) = JArr [JObj [("foo", JNum 1)]].
Proof.
  split; [|repeat split; reflexivity].
  intros v. destruct v as [| | | | xs | fs]; try reflexivity.
  unfold normalizeArrayResponse, normalize_spec, isApiArrayResponse, has_key, array_property.
  destruct (assoc "results" fs) as [[| | | | xs | ys]|] eqn:Hrs;
    destruct (assoc "result" fs) as [[| | | | zs | ws]|] eqn:Hr; reflexivity.
Qed.

(** ** Deadline and cancellation *)

(** An abort at time [ta] beats the network's own settlement of [n]. *)
Definition aborts_before (ta : Z) (n : net) : bool :=
  match n with
  | NetResponse t _ | NetFail t _ | NetSlowBody t _ _ => ta <? t
  | NetHang => true
  end.

Lemma fetch_abort_iff (sig : abort_signal) (n : net) :
  fetch sig n = FAbort <-> exists ta, aborted_at sig = Some ta /\ aborts_before ta n = true.
Proof.
  unfold fetch. destruct (aborted_at sig) as [ta|]; destruct n as [t r|t e| |t tb r]; simpl;
    try (destruct (ta <? t) eqn:E); split; intros H;
    try discriminate; try (exists ta; auto); try reflexivity;
    destruct H as (ta' & H1 & H2); try discriminate;
    injection H1 as <-; congruence.
Qed.

Lemma is_prefix_app (u b : string) : is_prefix u (u ++ b) = true.
Proof.
  induction u as [|c u IH]; [destruct b; reflexivity|].
  simpl. rewrite Ascii.eqb_refl, IH. reflexivity.
Qed.

Lemma includes_app_l (a s p : string) : includes s p = true -> includes (a ++ s) p = true.
Proof.
  intros H. induction a as [|c a IH]; [exact H|].
  simpl. rewrite IH, orb_true_r. reflexivity.
Qed.

Lemma includes_middle (a u b : string) : includes (a ++ u ++ b) u = true.
Proof.
  apply includes_app_l. destruct (u ++ b) as [|c s] eqn:E.
  - simpl. rewrite <- E. apply is_prefix_app.
  - simpl. rewrite <- E, is_prefix_app. reflexivity.
Qed.

Lemma request_catch_abort (cfg : config) (endpoint : string) (opts : req_options) :
  request_catch cfg endpoint opts abort_error
  = Throw (EC4 (TimeoutError (req_timeout cfg opts) (Some (req_url cfg endpoint)))).
Proof. reflexivity. Qed.

(** C8: with no caller signal, when the deadline fires before the network
    settles the request, [request] rejects with a [TimeoutError] (not a
    plain [NetworkError]) whose [timeout] is the configured one and whose
    message names the resolved URL. *)
Theorem request_deadline_timeout (cfg : config) (endpoint : string) (opts : req_options)
    (n : net)
    (Hsig : o_signal opts = None)
    (Hdl : aborts_before (req_timeout cfg opts) n = true) :
  exists c, request cfg endpoint opts n = Throw (EC4 c)
    /\ c = TimeoutError (req_timeout cfg opts) (Some (req_url cfg endpoint))
    /\ e_class c = CTimeoutError /\ e_class c <> CNetworkError
    /\ e_timeout c = Some (req_timeout cfg opts)
    /\ (req_url cfg endpoint <> "" -> includes (e_message c) (req_url cfg endpoint) = true).
Proof.
  exists (TimeoutError (req_timeout cfg opts) (Some (req_url cfg endpoint))).
  assert (Hf : fetch (requestSignal cfg opts) n = FAbort).
  { apply fetch_abort_iff. exists (req_timeout cfg opts).
    unfold requestSignal. rewrite Hsig. split; [reflexivity | exact Hdl]. }
  unfold request. rewrite Hf.
  replace (abort_reason (requestSignal cfg opts)) with abort_error
    by (unfold requestSignal; rewrite Hsig; reflexivity).
  rewrite request_catch_abort.
  split; [reflexivity|]. split; [reflexivity|]. split; [reflexivity|].
  split; [discriminate|]. split; [reflexivity|].
  intros Hne. simpl. apply String.eqb_neq in Hne. rewrite Hne.
  apply (includes_middle "Request to ").
Qed.

Definition opts_1ms : req_options :=
  {| o_method := Some "POST"; o_body := None; o_headers := []; o_timeout := Some 1;
     o_signal := None |}.

Lemma request_deadline_timeout_witness :
  exists c, request cfg3 "/crawl" opts_1ms NetHang = Throw (EC4 c)
    /\ c = TimeoutError (req_timeout cfg3 opts_1ms) (Some (req_url cfg3 "/crawl"))
    /\ e_class c = CTimeoutError /\ e_class c <> CNetworkError
    /\ e_timeout c = Some (req_timeout cfg3 opts_1ms)
    /\ (req_url cfg3 "/crawl" <> "" -> includes (e_message c) (req_url cfg3 "/crawl") = true).
Proof.
  apply (request_deadline_timeout cfg3 "/crawl" opts_1ms NetHang); reflexivity.
Defined.

Ltac peel_string :=
  match goal with
  | |- context [String.eqb ?s _] =>
      is_var s; destruct s as [|?c ?s]; [reflexivity|];
      destruct c as [[] [] [] [] [] [] [] []]; simpl; try reflexivity
  end.

(** The [catch] block, with the [error.name === 'AbortError'] test written
    as a string comparison. *)
Lemma request_catch_name (cfg : config) (endpoint : string) (opts : req_options) (e : exn) :
  request_catch cfg endpoint opts e
  = if match error_name e with Some n => String.eqb n "AbortError" | None => false end
    then Throw (EC4 (TimeoutError (req_timeout cfg opts) (Some (req_url cfg endpoint))))
    else match e with
         | EJs JSTypeError _ msg =>
             if includes msg "fetch"
             then Throw (EC4 (NetworkError ("Network request failed: " ++ msg)))
             else Throw e
         | _ => Throw e
         end.
Proof.
  unfold request_catch. destruct (error_name e) as [n|]; [|reflexivity].
  repeat peel_string.
Qed.

Definition timeout_reason : exn :=
  EJs JSDOMException "TimeoutError" "The operation was aborted due to timeout".

Definition signal_opts (s : abort_signal) : req_options :=
  {| o_method := Some "POST"; o_body := None; o_headers := []; o_timeout := Some 1000;
     o_signal := Some s |}.

(** C10 (counterexample): a caller signal made by [AbortSignal.timeout(50)]
    aborts with a [TimeoutError] [DOMException] as its reason; [fetch]
    rejects with that reason, whose [name] is not ['AbortError'], and
    [request] rethrows it as it is instead of a [TimeoutError] carrying the
    configured timeout.  Likewise [controller.abort('stop')] surfaces the
    bare string. *)
Lemma C10_signal_reason_rethrown :
  request cfg3 "/crawl" (signal_opts {| aborted_at := Some 50; abort_reason := timeout_reason |})
    (NetResponse 2000 resp500) = Throw timeout_reason
  /\ (forall c, request cfg3 "/crawl"
                  (signal_opts {| aborted_at := Some 50; abort_reason := timeout_reason |})
                  (NetResponse 2000 resp500) <> Throw (EC4 c))
  /\ request cfg3 "/crawl" (signal_opts {| aborted_at := Some 50; abort_reason := EValue "stop" |})
       NetHang = Throw (EValue "stop").
Proof.
  split; [reflexivity|]. split; [|reflexivity].
  intros c. vm_compute. discriminate.
Qed.

(** C10 (amended): with a caller-supplied signal [s], [fetch] is aborted
    exactly when [s] fires before the network settles, whatever the
    configured timeout; a request that never gets an answer and whose [s]
    never fires stays pending past any deadline; and an abort by [s] goes
    through the [catch] block with [s]'s reason: it is reported as a
    [TimeoutError] carrying the configured timeout when that reason is
    named ['AbortError'] (as with [controller.abort()]), and any other
    reason that is not a [TypeError] is rethrown unchanged. *)
Theorem request_external_signal (cfg : config) (endpoint : string) (opts : req_options)
    (n : net) (s : abort_signal)
    (Hsig : o_signal opts = Some s) :
  (fetch (requestSignal cfg opts) n = FAbort
   <-> exists ta, aborted_at s = Some ta /\ aborts_before ta n = true)
  /\ (aborted_at s = None -> n = NetHang -> request cfg endpoint opts n = Hang)
  /\ (forall ta, aborted_at s = Some ta -> aborts_before ta n = true ->
        request cfg endpoint opts n = request_catch cfg endpoint opts (abort_reason s)
        /\ (error_name (abort_reason s) = Some "AbortError" ->
            request cfg endpoint opts n
            = Throw (EC4 (TimeoutError (req_timeout cfg opts) (Some (req_url cfg endpoint)))))
        /\ (error_name (abort_reason s) <> Some "AbortError" ->
            (forall nm msg, abort_reason s <> EJs JSTypeError nm msg) ->
            request cfg endpoint opts n = Throw (abort_reason s))).
Proof.
  assert (Hrs : requestSignal cfg opts = s) by (unfold requestSignal; rewrite Hsig; reflexivity).
  split; [rewrite Hrs; apply fetch_abort_iff|]. split.
  - intros Hnone ->. unfold request. rewrite Hrs. unfold fetch. rewrite Hnone. reflexivity.
  - intros ta Hta Hb.
    assert (Hf : fetch (requestSignal cfg opts) n = FAbort)
      by (rewrite Hrs; apply fetch_abort_iff; exists ta; auto).
    assert (Hreq : request cfg endpoint opts n = request_catch cfg endpoint opts (abort_reason s))
      by (unfold request; rewrite Hf, Hrs; reflexivity).
    rewrite Hreq. split; [reflexivity|]. split.
    + intros Hn. unfold request_catch. rewrite Hn. reflexivity.
    + intros Hn Hty. rewrite request_catch_name.
      destruct (error_name (abort_reason s)) as [nm|] eqn:En.
      * destruct (String.eqb nm "AbortError") eqn:Eq.
        { apply String.eqb_eq in Eq. subst nm. contradiction. }
        destruct (abort_reason s) as [c|[] nm' msg|v]; try reflexivity.
        exfalso. apply (Hty nm' msg). reflexivity.
      * destruct (abort_reason s) as [c|[] nm' msg|v]; try reflexivity; discriminate.
Qed.

Definition caller_signal (t : option Z) : abort_signal :=
  {| aborted_at := t; abort_reason := abort_error |}.

Definition opts_signal (t : option Z) : req_options := signal_opts (caller_signal t).

Lemma request_external_signal_witness :
  (request cfg3 "/crawl" (opts_signal (Some 50)) (NetResponse 2000 resp500)
   = Throw (EC4 (TimeoutError (req_timeout cfg3 (opts_signal (Some 50)))
                              (Some (req_url cfg3 "/crawl")))))
  /\ request cfg3 "/crawl" (opts_signal None) NetHang = Hang
  /\ request cfg3 "/crawl" (signal_opts {| aborted_at := Some 50; abort_reason := timeout_reason |})
       (NetResponse 2000 resp500) = Throw timeout_reason.
Proof.
  split; [|split].
  - destruct (request_external_signal cfg3 "/crawl" (opts_signal (Some 50))
               (NetResponse 2000 resp500) (caller_signal (Some 50)) eq_refl)
      as (_ & _ & H).
    destruct (H 50 eq_refl eq_refl) as (_ & Hab & _). apply Hab. reflexivity.
  - apply (proj1 (proj2 (request_external_signal cfg3 "/crawl" (opts_signal None)
             NetHang (caller_signal None) eq_refl))); reflexivity.
  - destruct (request_external_signal cfg3 "/crawl"
               (signal_opts {| aborted_at := Some 50; abort_reason := timeout_reason |})
               (NetResponse 2000 resp500)
               {| aborted_at := Some 50; abort_reason := timeout_reason |} eq_refl)
      as (_ & _ & H).
    destruct (H 50 eq_refl eq_refl) as (_ & _ & Hraw).
    apply Hraw; [discriminate | intros nm msg; discriminate].
Defined.

(** ** Stream decoder *)

(** Modelled from the spec: the Server-Sent-Events stream decoder (the
    parsing behind [crawlStream], listed in the CHANGELOG but absent from
    [sdk.ts], where [request] returns the raw [text/event-stream] response).
    Chunks are decoded text; the decoder appends each chunk to a buffer,
    removes every complete frame (text up to a blank-line terminator, two
    consecutive line breaks, each LF or CRLF) and parses it into one event. *)
Module SSE.

Local Open Scope list_scope.

Definition text := list ascii.

Definition LF : ascii := "010"%char.
Definition CR : ascii := "013"%char.
Definition is_lf (c : ascii) : bool := Ascii.eqb c LF.
Definition is_cr (c : ascii) : bool := Ascii.eqb c CR.

(** Length of a blank-line terminator [\r?\n\r?\n] at the head of [s]. *)
Definition term_at (s : text) : option nat :=
  match s with
  | a :: b :: r =>
      if is_lf a then
        if is_lf b then Some 2%nat
        else if is_cr b then
          match r with c :: _ => if is_lf c then Some 3%nat else None | [] => None end
        else None
      else if is_cr a then
        if is_lf b then
          match r with
          | c :: r' =>
              if is_lf c then Some 3%nat
              else if is_cr c then
                match r' with d :: _ => if is_lf d then Some 4%nat else None | [] => None end
              else None
          | [] => None
          end
        else None
      else None
  | _ => None
  end.

(** The first complete frame of the buffer and what follows its terminator. *)
Fixpoint find_frame (s : text) : option (text * text) :=
  match term_at s with
  | Some k => Some ([], skipn k s)
  | None =>
      match s with
      | [] => None
      | c :: s' =>
          match find_frame s' with
          | Some (fr, rest) => Some (c :: fr, rest)
          | None => None
          end
      end
  end.

Fixpoint extract_frames (fuel : nat) (buf : text) : list text * text :=
  match fuel with
  | O => ([], buf)
  | S f =>
      match find_frame buf with
      | Some (fr, rest) => let '(frs, l) := extract_frames f rest in (fr :: frs, l)
      | None => ([], buf)
      end
  end.

(** All complete frames of a buffer, and the incomplete remainder. *)
Definition frames_of (buf : text) : list text * text := extract_frames (length buf) buf.

(** Lines of a frame: split on LF, a trailing CR of each line dropped. *)
Fixpoint split_lf (s : text) : list text :=
  match s with
  | [] => [[]]
  | c :: s' =>
      if is_lf c then [] :: split_lf s'
      else match split_lf s' with
           | l :: ls => (c :: l) :: ls
           | [] => [[c]]
           end
  end.

Definition strip_cr (l : text) : text :=
  match rev l with
  | c :: r => if is_cr c then rev r else l
  | [] => l
  end.

Definition frame_lines (fr : text) : list text := map strip_cr (split_lf fr).

Fixpoint text_eqb (a b : text) : bool :=
  match a, b with
  | [], [] => true
  | x :: a', y :: b' => Ascii.eqb x y && text_eqb a' b'
  | _, _ => false
  end.

Definition COLON : ascii := ":"%char.
Definition SPACE : ascii := " "%char.

(** [field:value]: the field is the text before the first colon, the value
    the text after it with one leading space dropped; a line without colon
    is a field with an empty value. *)
Fixpoint split_field (l : text) : text * text :=
  match l with
  | [] => ([], [])
  | c :: l' =>
      if Ascii.eqb c COLON then
        ([], match l' with s :: v => if Ascii.eqb s SPACE then v else l' | [] => [] end)
      else let '(f, v) := split_field l' in (c :: f, v)
  end.

Record stream_event := {
  se_event : option text;
  se_data : text;
  se_id : option text;
  se_retry : option text;
}.

Record builder := {
  b_event : option text;
  b_data : list text;
  b_id : option text;
  b_retry : option text;
}.

Definition empty_builder : builder :=
  {| b_event := None; b_data := []; b_id := None; b_retry := None |}.

Definition F_data : text := list_ascii_of_string "data".
Definition F_event : text := list_ascii_of_string "event".
Definition F_id : text := list_ascii_of_string "id".
Definition F_retry : text := list_ascii_of_string "retry".

(** One line of a frame: comments (leading colon) and empty lines are
    ignored, [data] values accumulate, [event], [id] and [retry] are set,
    any other field is ignored. *)
Definition parse_line (b : builder) (line : text) : builder :=
  match line with
  | [] => b
  | c :: _ =>
      if Ascii.eqb c COLON then b
      else
        let '(f, v) := split_field line in
        if text_eqb f F_data then
          {| b_event := b.(b_event); b_data := b.(b_data) ++ [v];
             b_id := b.(b_id); b_retry := b.(b_retry) |}
        else if text_eqb f F_event then
          {| b_event := Some v; b_data := b.(b_data); b_id := b.(b_id); b_retry := b.(b_retry) |}
        else if text_eqb f F_id then
          {| b_event := b.(b_event); b_data := b.(b_data); b_id := Some v; b_retry := b.(b_retry) |}
        else if text_eqb f F_retry then
          {| b_event := b.(b_event); b_data := b.(b_data); b_id := b.(b_id); b_retry := Some v |}
        else b
  end.

(** Lines joined with one LF between consecutive ones. *)
Fixpoint join_lf (ls : list text) : text :=
  match ls with
  | [] => []
  | [l] => l
  | l :: ls' => l ++ LF :: join_lf ls'
  end.

Definition parse_frame (fr : text) : stream_event :=
  let b := fold_left parse_line (frame_lines fr) empty_builder in
  {| se_event := b.(b_event); se_data := join_lf b.(b_data);
     se_id := b.(b_id); se_retry := b.(b_retry) |}.

(** Append a chunk to the buffer and emit the events of its complete frames. *)
Definition feed (buf chunk : text) : list stream_event * text :=
  let '(frs, rest) := frames_of (buf ++ chunk) in (map parse_frame frs, rest).

Fixpoint decode_from (buf : text) (chunks : list text) : list stream_event * text :=
  match chunks with
  | [] => ([], buf)
  | c :: cs =>
      let '(evs, buf') := feed buf c in
      let '(evs', buf'') := decode_from buf' cs in
      (evs ++ evs', buf'')
  end.

(** Events decoded from a sequence of chunks, and the pending partial frame. *)
Definition decode (chunks : list text) : list stream_event * text := decode_from [] chunks.

Definition t (s : string) : text := list_ascii_of_string s.
Definition crlf : text := [CR; LF].

Example decode_ex :
  decode [t "data: a"; [LF] ++ t "data: b"; [LF; LF] ++ t "foo: x"; crlf ++ t "data: c"; crlf ++ crlf]
  = ([{| se_event := None; se_data := t "a" ++ [LF] ++ t "b"; se_id := None; se_retry := None |};
      {| se_event := None; se_data := t "c"; se_id := None; se_retry := None |}], []).
Proof. vm_compute. reflexivity. Qed.

(** *** Frames are stable under appending input *)

Ltac bool_cases :=
  repeat match goal with
         | |- context [if ?x then _ else _] => destruct x
         end.

Lemma term_at_long (s c : text) :
  (4 <= length s)%nat -> term_at (s ++ c) = term_at s.
Proof.
  intros H. destruct s as [|a [|b [|d [|e r]]]]; simpl in H; try lia. reflexivity.
Qed.

Lemma term_at_some (s c : text) (k : nat) :
  term_at s = Some k -> term_at (s ++ c) = Some k /\ (2 <= k <= length s)%nat.
Proof.
  destruct s as [|a [|b [|d [|e r]]]]; simpl; try discriminate;
    bool_cases; intros H; try discriminate.
  all: injection H as <-.
  all: simpl; split; auto; lia.
Qed.

Lemma term_at_none (a : ascii) (s c : text) :
  term_at (a :: s) = None -> find_frame s <> None -> term_at (a :: s ++ c) = None.
Proof.
  intros H1 H2.
  destruct s as [|b [|d [|e r]]].
  - destruct H2. reflexivity.
  - destruct H2. simpl. reflexivity.
  - revert H1 H2. simpl. bool_cases; simpl; intros; congruence.
  - rewrite <- H1. apply (term_at_long (a :: b :: d :: e :: r)). simpl. lia.
Qed.

Lemma find_frame_cons (a : ascii) (s : text) :
  find_frame (a :: s)
  = match term_at (a :: s) with
    | Some k => Some ([], skipn k (a :: s))
    | None =>
        match find_frame s with
        | Some (fr, rest) => Some (a :: fr, rest)
        | None => None
        end
    end.
Proof. reflexivity. Qed.

Lemma find_frame_app (s c fr rest : text) :
  find_frame s = Some (fr, rest) -> find_frame (s ++ c) = Some (fr, rest ++ c).
Proof.
  revert fr rest. induction s as [|a s IH]; intros fr rest H.
  - discriminate.
  - rewrite find_frame_cons in H. change ((a :: s) ++ c) with (a :: (s ++ c)).
    rewrite find_frame_cons.
    destruct (term_at (a :: s)) as [k|] eqn:Ht.
    + injection H as <- <-. destruct (term_at_some _ c _ Ht) as [Hc Hk].
      change ((a :: s) ++ c) with (a :: (s ++ c)) in Hc. rewrite Hc. f_equal. f_equal.
      change (a :: s ++ c) with ((a :: s) ++ c). rewrite skipn_app.
      replace (k - length (a :: s))%nat with 0%nat by lia. reflexivity.
    + destruct (find_frame s) as [[fr' rest']|] eqn:Hs; [|discriminate].
      injection H as <- <-.
      rewrite (term_at_none a s c Ht) by congruence.
      rewrite (IH fr' rest' eq_refl). reflexivity.
Qed.

Lemma find_frame_length (s fr rest : text) :
  find_frame s = Some (fr, rest) -> (length fr + 2 + length rest <= length s)%nat.
Proof.
  revert fr rest. induction s as [|a s IH]; intros fr rest H.
  - discriminate.
  - rewrite find_frame_cons in H. destruct (term_at (a :: s)) as [k|] eqn:Ht.
    + injection H as <- <-. destruct (term_at_some _ [] _ Ht) as [_ Hk].
      rewrite length_skipn. cbn [length] in Hk |- *. lia.
    + destruct (find_frame s) as [[fr' rest']|] eqn:Hs; [|discriminate].
      injection H as <- <-. specialize (IH fr' rest' eq_refl). simpl. lia.
Qed.

Lemma extract_frames_fuel :
  forall f1 f2 s, (length s <= f1)%nat -> (length s <= f2)%nat ->
    extract_frames f1 s = extract_frames f2 s.
Proof.
  induction f1 as [|f1 IH]; intros f2 s H1 H2.
  - destruct s; simpl in H1; [|lia]. destruct f2; reflexivity.
  - destruct f2 as [|f2].
    + destruct s; simpl in H2; [|lia]. reflexivity.
    + simpl. destruct (find_frame s) as [[fr rest]|] eqn:Hf; [|reflexivity].
      apply find_frame_length in Hf. rewrite (IH f2 rest) by lia. reflexivity.
Qed.

Lemma frames_of_none (s : text) : find_frame s = None -> frames_of s = ([], s).
Proof.
  intros H. unfold frames_of. destruct (length s); simpl; [reflexivity|]. rewrite H. reflexivity.
Qed.

Lemma frames_of_some (s fr rest : text) :
  find_frame s = Some (fr, rest) ->
  frames_of s = (fr :: fst (frames_of rest), snd (frames_of rest)).
Proof.
  intros H. pose proof (find_frame_length _ _ _ H) as Hl.
  unfold frames_of. destruct (length s) as [|n] eqn:E; [lia|].
  simpl. rewrite H. rewrite (extract_frames_fuel n (length rest) rest) by lia.
  destruct (extract_frames (length rest) rest). reflexivity.
Qed.

Lemma frames_of_app :
  forall m s c, (length s <= m)%nat ->
    frames_of (s ++ c)
    = (fst (frames_of s) ++ fst (frames_of (snd (frames_of s) ++ c)),
       snd (frames_of (snd (frames_of s) ++ c))).
Proof.
  induction m as [m IH] using (well_founded_induction lt_wf). intros s c Hm.
  destruct (find_frame s) as [[fr rest]|] eqn:Hf.
  - rewrite (frames_of_some _ _ _ Hf).
    rewrite (frames_of_some _ _ _ (find_frame_app _ c _ _ Hf)).
    pose proof (find_frame_length _ _ _ Hf) as Hl.
    rewrite (IH (length rest)) by lia. reflexivity.
  - rewrite (frames_of_none _ Hf). simpl.
    destruct (frames_of (s ++ c)); reflexivity.
Qed.

Lemma frames_of_rest :
  forall m s, (length s <= m)%nat -> find_frame (snd (frames_of s)) = None.
Proof.
  induction m as [m IH] using (well_founded_induction lt_wf). intros s Hm.
  destruct (find_frame s) as [[fr rest]|] eqn:Hf.
  - rewrite (frames_of_some _ _ _ Hf). simpl.
    pose proof (find_frame_length _ _ _ Hf). apply (IH (length rest)); lia.
  - rewrite (frames_of_none _ Hf). exact Hf.
Qed.

Lemma decode_from_frames (chunks : list text) :
  forall buf, find_frame buf = None ->
    decode_from buf chunks
    = (map parse_frame (fst (frames_of (buf ++ concat chunks))),
       snd (frames_of (buf ++ concat chunks))).
Proof.
  induction chunks as [|c cs IH]; intros buf Hbuf.
  - simpl. rewrite app_nil_r, (frames_of_none _ Hbuf). reflexivity.
  - simpl. unfold feed.
    pose proof (frames_of_rest (length (buf ++ c)) (buf ++ c) (le_n _)) as Hr.
    destruct (frames_of (buf ++ c)) as [frs rest] eqn:E.
    rewrite (IH rest Hr).
    rewrite app_assoc, (frames_of_app (length (buf ++ c)) (buf ++ c)) by lia.
    rewrite E. simpl. rewrite map_app. reflexivity.
Qed.

Lemma decode_concat (chunks : list text) :
  decode chunks
  = (map parse_frame (fst (frames_of (concat chunks))), snd (frames_of (concat chunks))).
Proof. apply decode_from_frames. reflexivity. Qed.
(** *** Parsing the lines of a frame *)

(** A line with neither LF nor CR. *)
Definition no_brk (l : text) : bool := forallb (fun c => negb (is_lf c || is_cr c)) l.

Lemma split_lf_nobrk (l : text) : no_brk l = true -> split_lf l = [l].
Proof.
  induction l as [|c l IH]; intros H; [reflexivity|].
  simpl in H. apply andb_true_iff in H as [Hc Hl].
  simpl. destruct (is_lf c); [discriminate|]. rewrite (IH Hl). reflexivity.
Qed.

Lemma split_lf_app_lf (l r : text) :
  no_brk l = true -> split_lf (l ++ LF :: r) = l :: split_lf r.
Proof.
  induction l as [|c l IH]; intros H; [reflexivity|].
  simpl in H. apply andb_true_iff in H as [Hc Hl].
  simpl. destruct (is_lf c); [discriminate|]. rewrite (IH Hl). reflexivity.
Qed.

Lemma split_join (ls : list text) :
  ls <> [] -> Forall (fun l => no_brk l = true) ls -> split_lf (join_lf ls) = ls.
Proof.
  induction ls as [|x ls IH]; intros Hne Hall; [contradiction|].
  inversion Hall as [|? ? Hx Hls]; subst.
  destruct ls as [|y ls].
  - apply split_lf_nobrk, Hx.
  - change (join_lf (x :: y :: ls)) with (x ++ LF :: join_lf (y :: ls)).
    rewrite split_lf_app_lf by exact Hx. rewrite IH; [reflexivity | discriminate | exact Hls].
Qed.

Lemma strip_cr_nobrk (l : text) : no_brk l = true -> strip_cr l = l.
Proof.
  intros H. unfold strip_cr. destruct (rev l) as [|c r] eqn:E; [reflexivity|].
  assert (Hin : In c l) by (apply in_rev; rewrite E; left; reflexivity).
  unfold no_brk in H. rewrite forallb_forall in H. specialize (H c Hin).
  destruct (is_cr c); [rewrite orb_true_r in H; discriminate | reflexivity].
Qed.

Lemma frame_lines_join (ls : list text) :
  ls <> [] -> Forall (fun l => no_brk l = true) ls -> frame_lines (join_lf ls) = ls.
Proof.
  intros Hne Hall. unfold frame_lines. rewrite split_join by assumption.
  induction Hall as [|x ls Hx Hls IH]; [reflexivity|].
  simpl. rewrite strip_cr_nobrk by exact Hx.
  destruct ls as [|y ls]; [reflexivity|]. rewrite IH by discriminate. reflexivity.
Qed.

Definition data_line (x : text) : text := t "data: " ++ x.

Lemma no_brk_data_line (x : text) : no_brk x = true -> no_brk (data_line x) = true.
Proof. intros H. exact H. Qed.

Lemma parse_data_lines (xs : list text) :
  forall b, fold_left parse_line (map data_line xs) b
  = {| b_event := b.(b_event); b_data := b.(b_data) ++ xs;
       b_id := b.(b_id); b_retry := b.(b_retry) |}.
Proof.
  induction xs as [|x xs IH]; intros b.
  - destruct b. simpl. rewrite app_nil_r. reflexivity.
  - simpl. rewrite IH. simpl. rewrite <- app_assoc. reflexivity.
Qed.

Lemma split_field_colon (f v : text) :
  forallb (fun c => negb (Ascii.eqb c COLON)) f = true ->
  fst (split_field (f ++ COLON :: v)) = f.
Proof.
  induction f as [|c f IH]; intros H; [reflexivity|].
  simpl in H. apply andb_true_iff in H as [Hc Hf].
  simpl. destruct (Ascii.eqb c COLON); [discriminate|].
  destruct (split_field (f ++ COLON :: v)) as [f' v'] eqn:E.
  simpl in IH |- *. rewrite <- (IH Hf). reflexivity.
Qed.

Lemma parse_line_unknown (b : builder) (f v : text) :
  f <> [] ->
  forallb (fun c => negb (Ascii.eqb c COLON)) f = true ->
  existsb (text_eqb f) [F_data; F_event; F_id; F_retry] = false ->
  parse_line b (f ++ COLON :: v) = b.
Proof.
  intros Hne Hcol Hunk.
  pose proof (split_field_colon f v Hcol) as Hs.
  simpl in Hunk. rewrite !orb_false_iff in Hunk.
  destruct Hunk as (Hd & He & Hi & Hr & _).
  destruct f as [|c f]; [contradiction|].
  change ((c :: f) ++ COLON :: v) with (c :: (f ++ COLON :: v)) in Hs |- *.
  unfold parse_line.
  simpl in Hcol. apply andb_true_iff in Hcol as [Hc _].
  destruct (Ascii.eqb c COLON); [discriminate|].
  destruct (split_field (c :: f ++ COLON :: v)) as [f' v'] eqn:E.
  simpl in Hs. subst f'. rewrite Hd, He, Hi, Hr. reflexivity.
Qed.

(** C9: the decoder is chunk-boundary invariant (any split of the input,
    mid-frame included, gives the same events and the same pending partial
    frame as the unsplit input); the [data:] lines of a frame are joined
    with exactly one LF in their order; and a line with an unknown field
    name changes nothing in the event of its frame. *)
Theorem stream_decoder_chunk_invariant :
  (forall chunks, decode chunks = decode [concat chunks])
  /\ (forall xs, Forall (fun x => no_brk x = true) xs ->
        se_data (parse_frame (join_lf (map data_line xs))) = join_lf xs)
  /\ (forall ls1 ls2 f v,
        Forall (fun l => no_brk l = true) (ls1 ++ ls2) ->
        no_brk f = true -> no_brk v = true -> f <> [] ->
        forallb (fun c => negb (Ascii.eqb c COLON)) f = true ->
        existsb (text_eqb f) [F_data; F_event; F_id; F_retry] = false ->
        parse_frame (join_lf (ls1 ++ (f ++ COLON :: v) :: ls2))
        = parse_frame (join_lf (ls1 ++ ls2))).
Proof.
  split; [|split].
  - intros chunks. rewrite !decode_concat. simpl. rewrite app_nil_r. reflexivity.
  - intros xs Hall. destruct xs as [|x xs]; [reflexivity|].
    unfold parse_frame. rewrite frame_lines_join.
    + rewrite parse_data_lines. reflexivity.
    + discriminate.
    + apply Forall_map. eapply Forall_impl; [|exact Hall].
      intros y Hy. apply no_brk_data_line, Hy.
  - intros ls1 ls2 f v Hall Hf Hv Hne Hcol Hunk.
    assert (Hu : no_brk (f ++ COLON :: v) = true).
    { unfold no_brk in *. rewrite forallb_app. simpl. rewrite Hf, Hv. reflexivity. }
    assert (Hall' : Forall (fun l => no_brk l = true) (ls1 ++ (f ++ COLON :: v) :: ls2)).
    { apply Forall_app in Hall as [H1 H2]. apply Forall_app. split; [exact H1|].
      constructor; assumption. }
    assert (Hne' : ls1 ++ (f ++ COLON :: v) :: ls2 <> []) by (destruct ls1; discriminate).
    unfold parse_frame. rewrite (frame_lines_join _ Hne' Hall').
    assert (Hb : fold_left parse_line (ls1 ++ (f ++ COLON :: v) :: ls2) empty_builder
                 = fold_left parse_line (frame_lines (join_lf (ls1 ++ ls2))) empty_builder).
    { rewrite fold_left_app. simpl.
      rewrite (parse_line_unknown _ f v Hne Hcol Hunk), <- fold_left_app.
      destruct (ls1 ++ ls2) as [|l ls] eqn:E.
      - reflexivity.
      - rewrite frame_lines_join; [reflexivity | discriminate | exact Hall]. }
    rewrite Hb. reflexivity.
Qed.

Lemma stream_decoder_chunk_invariant_witness :
  decode [t "data: a"; [LF] ++ t "data: b"; [LF; LF]]
    = decode [concat [t "data: a"; [LF] ++ t "data: b"; [LF; LF]]]
  /\ se_data (parse_frame (join_lf (map data_line [t "a"; t "b"]))) = join_lf [t "a"; t "b"]
  /\ parse_frame (join_lf ([data_line (t "x")] ++ (t "foo" ++ COLON :: t "1") :: [data_line (t "y")]))
     = parse_frame (join_lf ([data_line (t "x")] ++ [data_line (t "y")])).
Proof.
  destruct stream_decoder_chunk_invariant as (H1 & H2 & H3).
  split; [apply H1|split].
  - apply H2. repeat constructor.
  - apply H3; try reflexivity; try discriminate. repeat constructor.
Defined.

End SSE.

(** ** Further properties of the request core *)

Section RetryShape.
Variable cfg : config.
Variable run : nat -> outcome.


Lemma retry_loop_success_after (f : nat -> exn) (v : rvalue) :
  forall k attempt n le,
    (k < n)%nat ->
    (forall a, (attempt <= a < attempt + k)%nat -> run a = Throw (f a) /\ no_retry (f a) = false) ->
    run (attempt + k)%nat = Ret v ->
    retry_loop cfg run n attempt le
    = (fail_trace cfg f k attempt ++ [Attempt (attempt + k)], Ret v)%list.
Proof.
  induction k as [|k IH]; intros attempt n le Hk Hf Hv.
  - destruct n as [|n]; [lia|]. simpl. rewrite Nat.add_0_r in Hv. rewrite Hv, Nat.add_0_r.
    reflexivity.
  - destruct n as [|n]; [lia|]. simpl.
    destruct (Hf attempt) as [Ha Hnr]; [lia|]. rewrite Ha, Hnr.
    rewrite (IH (S attempt) n (f attempt)); [| lia | intros a Hr; apply Hf; lia | ].
    + replace (S attempt + k)%nat with (attempt + S k)%nat by lia.
      simpl. rewrite app_assoc. reflexivity.
    + replace (S attempt + k)%nat with (attempt + S k)%nat by lia. exact Hv.
Qed.
End RetryShape.


(** X2: when the first [k] attempts (with [k <= retries]) fail with
    retryable errors and attempt [k] succeeds, [requestWithRetry] resolves to
    that attempt's value after exactly [k + 1] attempts, sleeping the
    computed delay after each of the [k] failures. *)
Theorem requestWithRetry_success_after_failures (cfg : config) (run : nat -> outcome)
    (f : nat -> exn) (v : rvalue) (k : nat)
    (Hk : (k <= retries cfg)%nat)
    (Hf : forall a, (a < k)%nat -> run a = Throw (f a) /\ no_retry (f a) = false)
    (Hv : run k = Ret v) :
  snd (requestWithRetry cfg run) = Ret v
  /\ attempts (fst (requestWithRetry cfg run)) = S k
  /\ sleeps (fst (requestWithRetry cfg run)) = map (fun a => retry_delay cfg (f a) a) (seq 0 k).
Proof.
  unfold requestWithRetry.
  rewrite (retry_loop_success_after cfg run f v k 0); [| lia | intros a Ha; apply Hf; lia | exact Hv].
  simpl snd. split; [reflexivity|]. cbn [fst]. split.
  - rewrite attempts_app, fail_trace_attempts. unfold attempts. simpl. lia.
  - rewrite sleeps_app, fail_trace_sleeps, filter_lt_seq by lia. simpl. apply app_nil_r.
Qed.

Lemma requestWithRetry_success_after_failures_witness :
  snd (requestWithRetry cfg3 (fun a => if (a <? 2)%nat then Throw plain_error else Ret RStream))
    = Ret RStream
  /\ attempts (fst (requestWithRetry cfg3 (fun a => if (a <? 2)%nat then Throw plain_error
                                                     else Ret RStream))) = 3%nat
  /\ sleeps (fst (requestWithRetry cfg3 (fun a => if (a <? 2)%nat then Throw plain_error
                                                  else Ret RStream)))
     = map (fun a => retry_delay cfg3 ((fun _ => plain_error) a) a) (seq 0 2).
Proof.
  apply (requestWithRetry_success_after_failures cfg3 _ (fun _ => plain_error) RStream 2).
  - simpl. lia.
  - intros a Ha. apply Nat.ltb_lt in Ha. rewrite Ha. split; reflexivity.
  - reflexivity.
Defined.

Ltac z_branches :=
  repeat match goal with
         | |- context [if (?s =? ?k) then _ else _] =>
             let E := fresh "E" in
             destruct (s =? k) eqn:E; [apply Z.eqb_eq in E; subst | ]
         end.

Lemma createHttpError_status (status : Z) (statusText : string) (message : option string)
    (data : option rvalue) (headers : option (list (string * string))) :
  e_status (createHttpError status statusText message data headers) = Some status.
Proof.
  unfold createHttpError. cbv zeta. z_branches; try reflexivity.
  destruct ((status =? 500) || (status =? 502) || (status =? 503) || (status =? 504));
    reflexivity.
Qed.

(** X3: every error built by [createHttpError] keeps the HTTP status it was
    given, so the coordinator's retry decision on it depends on the status
    alone: it is rethrown without retry exactly when the status is a
    nonzero 4xx other than 429. *)
Theorem createHttpError_retry_decision (status : Z) (statusText : string)
    (message : option string) (data : option rvalue)
    (headers : option (list (string * string))) :
  e_status (createHttpError status statusText message data headers) = Some status
  /\ no_retry (EC4 (createHttpError status statusText message data headers))
     = negb (status =? 0) && (400 <=? status) && (status <? 500) && negb (status =? 429).
Proof.
  split; [apply createHttpError_status|].
  unfold no_retry. rewrite createHttpError_status. reflexivity.
Qed.

Lemma createHttpError_name_not_abort (status : Z) (statusText : string)
    (message : option string) (data : option rvalue)
    (headers : option (list (string * string))) :
  String.eqb (e_name (createHttpError status statusText message data headers)) "AbortError"
  = false.
Proof.
  unfold createHttpError. cbv zeta. z_branches; try reflexivity.
  destruct ((status =? 500) || (status =? 502) || (status =? 503) || (status =? 504));
    reflexivity.
Qed.

(** X4: when [validateStatus] rejects a decoded JSON response and
    [throwOnError] is set, [request] throws the error [createHttpError]
    builds for the response (same class, message and status) with the
    request descriptor attached: the full URL, the method ([GET] by
    default) and the merged headers. *)
Theorem request_http_error_carries_request (cfg : config) (endpoint : string)
    (opts : req_options) (n : net) (r : response) (j : json)
    (Hf : fetch (requestSignal cfg opts) n = FResp r)
    (Hct : includes (response_content_type r) "application/json" = true)
    (Hj : r_json r = Some j)
    (Hv : validateStatus cfg (r_status r) = false)
    (Ht : throwOnError cfg = true) :
  exists e,
    request cfg endpoint opts n = Throw (EC4 e)
    /\ e_class e = e_class (createHttpError (r_status r) (r_statusText r) None
                             (Some (RJson j)) (Some (r_headers r)))
    /\ e_message e = e_message (createHttpError (r_status r) (r_statusText r) None
                                 (Some (RJson j)) (Some (r_headers r)))
    /\ e_status e = Some (r_status r)
    /\ e_request e = Some {| ri_url := req_url cfg endpoint; ri_method := req_method opts;
                             ri_headers := requestHeaders cfg opts |}.
Proof.
  unfold request. rewrite Hf. unfold handle_response. rewrite Hct, Hj.
  unfold check_status. rewrite Hv, Ht. simpl negb. cbv zeta.
  rewrite request_catch_name. cbn [error_name e_name]. rewrite createHttpError_name_not_abort.
  eexists. split; [reflexivity|]. simpl.
  split; [reflexivity|]. split; [reflexivity|]. split; [apply createHttpError_status|].
  reflexivity.
Qed.

Definition resp_json (status : Z) (body : json) : response :=
  {| r_status := status; r_statusText := "Bad Request";
     r_headers := [("content-type", "application/json")];
     r_text := ""; r_json := Some body |}.

Lemma request_http_error_carries_request_witness :
  exists e,
    request (mk_config 3 1000 true) "/crawl" no_options
      (NetResponse 10 (resp_json 422 (JObj []))) = Throw (EC4 e)
    /\ e_class e = e_class (createHttpError 422 "Bad Request" None
                             (Some (RJson (JObj []))) (Some [("content-type", "application/json")]))
    /\ e_message e = e_message (createHttpError 422 "Bad Request" None
                             (Some (RJson (JObj []))) (Some [("content-type", "application/json")]))
    /\ e_status e = Some 422
    /\ e_request e = Some {| ri_url := req_url (mk_config 3 1000 true) "/crawl";
                             ri_method := req_method no_options;
                             ri_headers := requestHeaders (mk_config 3 1000 true) no_options |}.
Proof.
  apply (request_http_error_carries_request (mk_config 3 1000 true) "/crawl" no_options
           (NetResponse 10 (resp_json 422 (JObj []))) (resp_json 422 (JObj [])) (JObj []));
    reflexivity.
Defined.

(** X5: a response whose content type names [text/event-stream] (and none
    of [application/json], [text/html], [text/plain]) is handed back as the
    raw stream, whatever its status: [validateStatus] and [throwOnError]
    are never consulted, so an error status does not throw. *)
Theorem request_event_stream_bypasses_status (cfg : config) (endpoint : string)
    (opts : req_options) (n : net) (r : response)
    (Hf : fetch (requestSignal cfg opts) n = FResp r)
    (Hj : includes (response_content_type r) "application/json" = false)
    (Hh : includes (response_content_type r) "text/html" = false)
    (Hp : includes (response_content_type r) "text/plain" = false)
    (Hs : includes (response_content_type r) "text/event-stream" = true) :
  request cfg endpoint opts n = Ret RStream.
Proof.
  unfold request. rewrite Hf. unfold handle_response. rewrite Hj, Hh, Hp, Hs. reflexivity.
Qed.

Definition resp_sse_500 : response :=
  {| r_status := 500; r_statusText := "Internal Server Error";
     r_headers := [("content-type", "text/event-stream; charset=utf-8")];
     r_text := ""; r_json := None |}.

Lemma request_event_stream_bypasses_status_witness :
  request (mk_config 3 1000 true) "/crawl/stream" no_options (NetResponse 10 resp_sse_500)
  = Ret RStream.
Proof.
  apply (request_event_stream_bypasses_status _ _ _ _ resp_sse_500); reflexivity.
Defined.

Definition syntax_error : exn := EJs JSSyntaxError "SyntaxError" "Unexpected token".

(** X6: a response labelled [application/json] whose body does not parse
    makes [request] rethrow the [SyntaxError] of [response.json()] itself,
    not a [ParseError] or any other [Crawl4AIError]; since it has no
    status, [requestWithRetry] retries it, and when every attempt gets
    such a body it makes all [retries + 1] attempts and rethrows the
    [SyntaxError]. *)
Theorem request_invalid_json_is_retried (cfg : config) (endpoint : string)
    (opts : req_options) (nets : nat -> net) (rs : nat -> response)
    (Hf : forall a, fetch (requestSignal cfg opts) (nets a) = FResp (rs a))
    (Hct : forall a, includes (response_content_type (rs a)) "application/json" = true)
    (Hj : forall a, r_json (rs a) = None) :
  (forall a, request cfg endpoint opts (nets a) = Throw syntax_error)
  /\ attempts (fst (requestWithRetry cfg (fun a => request cfg endpoint opts (nets a))))
     = S (retries cfg)
  /\ snd (requestWithRetry cfg (fun a => request cfg endpoint opts (nets a)))
     = Throw syntax_error.
Proof.
  assert (Hr : forall a, request cfg endpoint opts (nets a) = Throw syntax_error).
  { intros a. unfold request. rewrite Hf. unfold handle_response. rewrite Hct, Hj.
    rewrite request_catch_name. reflexivity. }
  split; [exact Hr|].
  unfold requestWithRetry.
  rewrite (retry_loop_all_fail cfg _ (fun _ => syntax_error)).
  - split; [apply fail_trace_attempts | reflexivity].
  - intros a _. split; [apply Hr | reflexivity].
Qed.

Definition resp_bad_json : response :=
  {| r_status := 200; r_statusText := "OK";
     r_headers := [("content-type", "application/json")];
     r_text := "<html>"; r_json := None |}.

Lemma request_invalid_json_is_retried_witness :
  (forall a, request (mk_config 2 100 true) "/md" no_options
               ((fun _ : nat => NetResponse 5 resp_bad_json) a) = Throw syntax_error)
  /\ attempts (fst (requestWithRetry (mk_config 2 100 true)
                      (fun a => request (mk_config 2 100 true) "/md" no_options
                                  ((fun _ : nat => NetResponse 5 resp_bad_json) a))))
     = S (retries (mk_config 2 100 true))
  /\ snd (requestWithRetry (mk_config 2 100 true)
            (fun a => request (mk_config 2 100 true) "/md" no_options
                        ((fun _ : nat => NetResponse 5 resp_bad_json) a)))
     = Throw syntax_error.
Proof.
  apply (request_invalid_json_is_retried _ _ _ _ (fun _ => resp_bad_json));
    intros; reflexivity.
Defined.

(** X7: a transport failure that is a [TypeError] not named [AbortError]
    becomes a [NetworkError] with message ["Network request failed: "]
    followed by the original message when that message contains ["fetch"],
    and is rethrown unchanged otherwise; the [NetworkError] carries no
    status, so the retry coordinator retries it. *)
Theorem request_type_error_mapping (cfg : config) (endpoint : string)
    (opts : req_options) (n : net) (name msg : string)
    (Hf : fetch (requestSignal cfg opts) n = FErr (EJs JSTypeError name msg))
    (Hn : String.eqb name "AbortError" = false) :
  request cfg endpoint opts n
  = (if includes msg "fetch"
     then Throw (EC4 (NetworkError ("Network request failed: " ++ msg)))
     else Throw (EJs JSTypeError name msg))
  /\ no_retry (EC4 (NetworkError ("Network request failed: " ++ msg))) = false.
Proof.
  split; [|reflexivity].
  unfold request. rewrite Hf. rewrite request_catch_name. cbn [error_name].
  rewrite Hn. reflexivity.
Qed.

Lemma request_type_error_mapping_witness :
  request (mk_config 3 1000 true) "/health" no_options
    (NetFail 3 (EJs JSTypeError "TypeError" "fetch failed"))
  = (if includes "fetch failed" "fetch"
     then Throw (EC4 (NetworkError ("Network request failed: " ++ "fetch failed")))
     else Throw (EJs JSTypeError "TypeError" "fetch failed"))
  /\ no_retry (EC4 (NetworkError ("Network request failed: " ++ "fetch failed"))) = false.
Proof.
  apply (request_type_error_mapping _ _ _ _ "TypeError" "fetch failed"); reflexivity.
Defined.

Lemma assoc_app {A} (k : string) (l1 l2 : list (string * A)) :
  assoc k (l1 ++ l2)%list = match assoc k l1 with Some v => Some v | None => assoc k l2 end.
Proof.
  induction l1 as [|[k' v] l1 IH]; [reflexivity|]. simpl.
  destruct (String.eqb k k'); [reflexivity | exact IH].
Qed.

Lemma assoc_filter {A} (k : string) (p : string * A -> bool) (l : list (string * A)) :
  (forall v, p (k, v) = true) -> assoc k (filter p l) = assoc k l.
Proof.
  intros Hp. induction l as [|[k' v] l IH]; [reflexivity|]. simpl.
  destruct (String.eqb k k') eqn:E.
  - apply String.eqb_eq in E. subst k'. rewrite Hp. simpl. rewrite String.eqb_refl. reflexivity.
  - destruct (p (k', v)); simpl; [rewrite E|]; exact IH.
Qed.

Lemma assoc_none_not_key (k : string) (b : list (string * string)) :
  assoc k b = None -> existsb (fun kv' => String.eqb k (fst kv')) b = false.
Proof.
  induction b as [|[k' v] b IH]; [reflexivity|]. simpl.
  destruct (String.eqb k k'); [discriminate | exact IH].
Qed.

(** X8: in the merged request headers [{ ...defaultHeaders, ...headers }]
    a per-call header wins over the client default of the same name, and
    every default the call does not override is kept. *)
Theorem requestHeaders_lookup (cfg : config) (opts : req_options) (k : string) :
  assoc k (requestHeaders cfg opts)
  = match assoc k (o_headers opts) with
    | Some v => Some v
    | None => assoc k (defaultHeaders cfg)
    end.
Proof.
  unfold requestHeaders, merge_headers. rewrite assoc_app.
  destruct (assoc k (o_headers opts)) eqn:E; [reflexivity|].
  apply assoc_filter. intros v. simpl. rewrite (assoc_none_not_key k _ E). reflexivity.
Qed.

(** ** Public API methods of [Crawl4AI] ([sdk.ts]) *)

(** A JavaScript value handed back to the caller of an API method. *)
Inductive jsval :=
| VUndef
| VStr (s : string)
| VJson (j : json)   (* a non-string value decoded from JSON *)
| VStream.           (* the raw [Response] of an SSE endpoint *)

Definition json_to_jsval (j : json) : jsval :=
  match j with JStr s => VStr s | _ => VJson j end.

Definition rvalue_to_jsval (v : rvalue) : jsval :=
  match v with RJson j => json_to_jsval j | RText s => VStr s | RStream => VStream end.

(** JavaScript truthiness. *)
Definition truthy (v : jsval) : bool :=
  match v with
  | VUndef => false
  | VStr s => negb (String.eqb s "")
  | VJson JNull => false
  | VJson (JBool b) => b
  | VJson (JNum z) => negb (z =? 0)
  | VJson _ => true
  | VStream => true
  end.

Definition type_error (msg : string) : exn := EJs JSTypeError "TypeError" msg.

(** Property read [response.k] on a decoded body, for the data keys the
    methods read ([markdown], [html], [answer], [version], [doc_results],
    ...), none of which is a built-in property of strings, arrays or
    [Response] objects: reading it off [null] throws a [TypeError], off an
    object it is the key's value, off anything else [undefined]. *)
Definition get_prop (v : rvalue) (k : string) : exn + jsval :=
  match v with
  | RJson JNull => inl (type_error ("Cannot read properties of null (reading '" ++ k ++ "')"))
  | RJson (JObj fs) => inr (match assoc k fs with Some j => json_to_jsval j | None => VUndef end)
  | _ => inr VUndef
  end.

(** [typeof response === 'string'] *)
Definition string_response (v : rvalue) : option string :=
  match v with RJson (JStr s) => Some s | RText s => Some s | _ => None end.

(** The settled result of an API method. *)
Inductive api {A : Type} :=
| AOk (a : A)
| AThrow (e : exn)
| AHang.
Arguments api : clear implicits.

(** [await this.requestWithRetry(...)] followed by the method's own
    post-processing of the resolved value. *)
Definition then_post {A} (o : outcome) (post : rvalue -> exn + A) : api A :=
  match o with
  | Ret v => match post v with inl e => AThrow e | inr a => AOk a end
  | Throw e => AThrow e
  | Hang => AHang
  end.

(** [config?: RequestConfig] *)
Record request_config := {
  rc_timeout : option Z;
  rc_signal : option abort_signal;
  rc_headers : option (list (string * string));
}.

Definition no_request_config : request_config :=
  {| rc_timeout := None; rc_signal := None; rc_headers := None |}.

(** [{ method, body, ...config }] *)
Definition call_options (meth : string) (body : option string) (rc : request_config)
    : req_options :=
  {| o_method := Some meth; o_body := body;
     o_headers := match rc.(rc_headers) with Some h => h | None => [] end;
     o_timeout := rc.(rc_timeout); o_signal := rc.(rc_signal) |}.

Section Api.
Variable cfg : config.
(** [new URL(u)] succeeds: the WHATWG URL parser, a platform primitive. *)
Variable url_valid : string -> bool.
(** What the network does on the [a]-th call of [request] made by a method. *)
Variable nets : nat -> net.

(** [validateUrl(url)] *)
Definition validateUrl (url : string) : option exn :=
  if url_valid url then None
  else Some (EC4 (RequestValidationError ("Invalid URL: " ++ url))).

(** [for (const url of urls) this.validateUrl(url)]: the first failure. *)
Fixpoint validateUrls (urls : list string) : option exn :=
  match urls with
  | [] => None
  | u :: us => match validateUrl u with Some e => Some e | None => validateUrls us end
  end.

(** [this.requestWithRetry(endpoint, opts)] with its trace of attempts. *)
Definition retried (endpoint : string) (opts : req_options) : list ev * outcome :=
  requestWithRetry cfg (fun a => request cfg endpoint opts (nets a)).

Definition with_url_check {A} (check : option exn) (endpoint : string) (opts : req_options)
    (post : rvalue -> exn + A) : list ev * api A :=
  match check with
  | Some e => ([], AThrow e)
  | None => let '(tr, o) := retried endpoint opts in (tr, then_post o post)
  end.

(** [typeof response === 'string' ? response : response.k] *)
Definition string_or_prop (k : string) (v : rvalue) : exn + jsval :=
  match string_response v with Some s => inr (VStr s) | None => get_prop v k end.

(** [markdown(request, config)]; [body] is [JSON.stringify(request)]. *)
Definition markdown (url : string) (body : string) (rc : request_config) : list ev * api jsval :=
  with_url_check (validateUrl url) "/md" (call_options "POST" (Some body) rc)
    (string_or_prop "markdown").

Definition html (url : string) (body : string) (rc : request_config) : list ev * api jsval :=
  with_url_check (validateUrl url) "/html" (call_options "POST" (Some body) rc)
    (string_or_prop "html").

Definition executeJs (url : string) (body : string) (rc : request_config)
    : list ev * api rvalue :=
  with_url_check (validateUrl url) "/execute_js" (call_options "POST" (Some body) rc)
    (fun v => inr v).

(** [request.urls]: one URL or an array of them. *)
Inductive urls_field := UOne (u : string) | UMany (us : list string).

Definition urls_list (f : urls_field) : list string :=
  match f with UOne u => [u] | UMany us => us end.

(** [normalizeArrayResponse] applied to whatever [requestWithRetry]
    resolved with: a text body or a [Response] object is neither an array
    nor an object with [results], so it is wrapped. *)
Definition crawl_post (v : rvalue) : exn + list jsval :=
  match v with
  | RJson j =>
      match normalizeArrayResponse j with
      | JArr xs => inr (map json_to_jsval xs)
      | j' => inr [json_to_jsval j']
      end
  | RText s => inr [VStr s]
  | RStream => inr [VStream]
  end.

(** [crawl(request, config)]; [body] is [JSON.stringify(normalizedRequest)]. *)
Definition crawl (urls : urls_field) (body : string) (rc : request_config)
    : list ev * api (list jsval) :=
  with_url_check (validateUrls (urls_list urls)) "/crawl"
    (call_options "POST" (Some body) rc) crawl_post.

(** [encodeURIComponent(url)] and [new URLSearchParams({ q: query }).toString()]
    enter only the endpoint; they are given as the strings they produce. *)
Definition llm_post (v : rvalue) : exn + jsval :=
  match string_response v with
  | Some s => inr (VStr s)
  | None =>
      match get_prop v "answer" with
      | inl e => inl e
      | inr a => inr (if truthy a then a else VStr "")
      end
  end.

Definition llm (url : string) (encodedUrl queryString : string) (rc : request_config)
    : list ev * api jsval :=
  with_url_check (validateUrl url) ("/llm/" ++ encodedUrl ++ "?" ++ queryString)
    (call_options "GET" None rc) llm_post.
End Api.

Definition HEALTH_CHECK_TIMEOUT := 5000.

(** [health(config)] goes through [request] directly, without retries. *)
Definition health (cfg : config) (rc : request_config) (n : net) : outcome :=
  request cfg "/health" (call_options "GET" None rc) n.

(** [testConnection(options)] *)
Definition testConnection (cfg : config) (throwOpt : bool) (n : net) : api bool :=
  match health cfg {| rc_timeout := Some HEALTH_CHECK_TIMEOUT; rc_signal := None;
                      rc_headers := None |} n with
  | Ret _ => AOk true
  | Throw e => if throwOpt then AThrow e else AOk false
  | Hang => AHang
  end.

(** [version(options)]: the property read happens inside the [try]. *)
Definition version (cfg : config) (throwOpt : bool) (n : net) : api jsval :=
  let caught e := if throwOpt then AThrow e else AOk (VStr "unknown") in
  match health cfg no_request_config n with
  | Ret v =>
      match get_prop v "version" with
      | inl e => caught e
      | inr x => AOk (if truthy x then x else VStr "unknown")
      end
  | Throw e => caught e
  | Hang => AHang
  end.

Lemma request_catch_not_hang (cfg : config) (endpoint : string) (opts : req_options) (e : exn) :
  request_catch cfg endpoint opts e <> Hang.
Proof.
  rewrite request_catch_name.
  destruct (match error_name e with Some n => String.eqb n "AbortError" | None => false end);
    [discriminate|].
  destruct e as [c|[] nm msg|s]; try discriminate.
  destruct (includes msg "fetch"); discriminate.
Qed.

Lemma handle_response_not_hang (cfg : config) (endpoint : string) (opts : req_options)
    (r : response) :
  handle_response cfg endpoint opts r <> Hang.
Proof.
  assert (Hc : forall d, check_status cfg endpoint opts r d <> Hang).
  { intros d. unfold check_status. cbv zeta.
    destruct (negb (validateStatus cfg (r_status r))); [|discriminate].
    destruct (throwOnError cfg); [apply request_catch_not_hang | discriminate]. }
  unfold handle_response. cbv zeta.
  destruct (includes (response_content_type r) "application/json").
  - destruct (r_json r); [apply Hc | apply request_catch_not_hang].
  - destruct (_ || _); [apply Hc|].
    destruct (includes (response_content_type r) "text/event-stream"); [discriminate | apply Hc].
Qed.

(** Without a caller signal the request settles unless the headers come
    in before the deadline and the body then never completes: the timeout
    controller aborts a fetch that never answers, but it is cleared before
    the body is read. *)
Lemma request_no_signal_hang (cfg : config) (endpoint : string) (opts : req_options) (n : net) :
  o_signal opts = None -> request cfg endpoint opts n = Hang ->
  exists t r, n = NetSlowBody t None r /\ t <= req_timeout cfg opts
              /\ returns_stream r = false.
Proof.
  intros Hs Hh. unfold request, requestSignal in Hh. rewrite Hs in Hh.
  unfold controller_signal, fetch in Hh. simpl in Hh.
  destruct n as [t r|t e| |t tb r].
  - destruct (req_timeout cfg opts <? t);
      [apply request_catch_not_hang in Hh | apply handle_response_not_hang in Hh];
      contradiction.
  - destruct (req_timeout cfg opts <? t); apply request_catch_not_hang in Hh; contradiction.
  - apply request_catch_not_hang in Hh; contradiction.
  - destruct (req_timeout cfg opts <? t) eqn:Et;
      [apply request_catch_not_hang in Hh; contradiction|].
    unfold handle_slow_body in Hh.
    destruct (returns_stream r) eqn:Er; [discriminate|].
    unfold read_body, body_abort_at in Hh. rewrite Hs in Hh.
    destruct tb as [b|]; [apply handle_response_not_hang in Hh; contradiction|].
    exists t, r. split; [reflexivity|]. split; [apply Z.ltb_ge; exact Et | exact Er].
Qed.

(** X9: [markdown], [html], [executeJs] and [llm] check their URL with
    [validateUrl] first: an invalid URL throws a [RequestValidationError]
    ["Invalid URL: <url>"] (status 400) before any request is made. *)
Theorem api_invalid_url_no_request (cfg : config) (url_valid : string -> bool)
    (nets : nat -> net) (url body encodedUrl queryString : string) (rc : request_config)
    (Hu : url_valid url = false) :
  markdown cfg url_valid nets url body rc
    = ([], AThrow (EC4 (RequestValidationError ("Invalid URL: " ++ url))))
  /\ html cfg url_valid nets url body rc
    = ([], AThrow (EC4 (RequestValidationError ("Invalid URL: " ++ url))))
  /\ executeJs cfg url_valid nets url body rc
    = ([], AThrow (EC4 (RequestValidationError ("Invalid URL: " ++ url))))
  /\ llm cfg url_valid nets url encodedUrl queryString rc
    = ([], AThrow (EC4 (RequestValidationError ("Invalid URL: " ++ url))))
  /\ e_status (RequestValidationError ("Invalid URL: " ++ url)) = Some 400.
Proof.
  unfold markdown, html, executeJs, llm, with_url_check, validateUrl. rewrite Hu.
  repeat split.
Qed.

Definition http_only (u : string) : bool := is_prefix "http" u.

Lemma api_invalid_url_no_request_witness :
  markdown (mk_config 3 1000 true) http_only (fun _ => NetHang) "example.com" "{}"
      no_request_config
    = ([], AThrow (EC4 (RequestValidationError ("Invalid URL: " ++ "example.com"))))
  /\ html (mk_config 3 1000 true) http_only (fun _ => NetHang) "example.com" "{}"
      no_request_config
    = ([], AThrow (EC4 (RequestValidationError ("Invalid URL: " ++ "example.com"))))
  /\ executeJs (mk_config 3 1000 true) http_only (fun _ => NetHang) "example.com" "{}"
      no_request_config
    = ([], AThrow (EC4 (RequestValidationError ("Invalid URL: " ++ "example.com"))))
  /\ llm (mk_config 3 1000 true) http_only (fun _ => NetHang) "example.com" "example.com"
      "q=x" no_request_config
    = ([], AThrow (EC4 (RequestValidationError ("Invalid URL: " ++ "example.com"))))
  /\ e_status (RequestValidationError ("Invalid URL: " ++ "example.com")) = Some 400.
Proof.
  apply api_invalid_url_no_request. reflexivity.
Defined.

Lemma validateUrls_first (url_valid : string -> bool) (pre : list string) (u : string)
    (post : list string) :
  forallb url_valid pre = true -> url_valid u = false ->
  validateUrls url_valid (pre ++ u :: post)%list
  = Some (EC4 (RequestValidationError ("Invalid URL: " ++ u))).
Proof.
  intros Hpre Hu. induction pre as [|p pre IH]; simpl in *.
  - unfold validateUrl. rewrite Hu. reflexivity.
  - apply andb_prop in Hpre as [Hp Hpre]. unfold validateUrl at 1. rewrite Hp. apply IH, Hpre.
Qed.

(** X10: [crawl] validates every URL of [request.urls] (a single URL
    counts as a one-element list) before sending anything: the first
    invalid URL is reported as a [RequestValidationError] and no request
    is made. *)
Theorem crawl_invalid_url_no_request (cfg : config) (url_valid : string -> bool)
    (nets : nat -> net) (urls : urls_field) (pre post : list string) (u body : string)
    (rc : request_config)
    (Hl : urls_list urls = (pre ++ u :: post)%list)
    (Hpre : forallb url_valid pre = true)
    (Hu : url_valid u = false) :
  crawl cfg url_valid nets urls body rc
  = ([], AThrow (EC4 (RequestValidationError ("Invalid URL: " ++ u)))).
Proof.
  unfold crawl, with_url_check. rewrite Hl, validateUrls_first by assumption. reflexivity.
Qed.

Lemma crawl_invalid_url_no_request_witness :
  crawl (mk_config 3 1000 true) http_only (fun _ => NetHang)
    (UMany ["https://a.example"; "ftp.example"; "nope"]) "{}" no_request_config
  = ([], AThrow (EC4 (RequestValidationError ("Invalid URL: " ++ "ftp.example")))).
Proof.
  apply (crawl_invalid_url_no_request _ _ _ _ ["https://a.example"] ["nope"]);
    reflexivity.
Defined.

(** X11: [markdown] (and likewise [html]) resolves with the body itself
    when it is a string; for a JSON object body it resolves with the
    [markdown] field, and with [undefined] when the field is missing; a
    JSON [null] body makes it throw a [TypeError] rather than a
    [Crawl4AIError]. *)
Theorem markdown_result (cfg : config) (url_valid : string -> bool) (nets : nat -> net)
    (url body : string) (rc : request_config) (v : rvalue)
    (Hu : url_valid url = true)
    (Hr : snd (retried cfg nets "/md" (call_options "POST" (Some body) rc)) = Ret v) :
  snd (markdown cfg url_valid nets url body rc)
  = match v with
    | RText s | RJson (JStr s) => AOk (VStr s)
    | RJson JNull => AThrow (type_error "Cannot read properties of null (reading 'markdown')")
    | RJson (JObj fs) =>
        AOk (match assoc "markdown" fs with Some j => json_to_jsval j | None => VUndef end)
    | _ => AOk VUndef
    end.
Proof.
  unfold markdown, with_url_check, validateUrl. rewrite Hu.
  destruct (retried cfg nets "/md" (call_options "POST" (Some body) rc)) as [tr o].
  simpl in Hr |- *. subst o. simpl.
  destruct v as [[| | | | |]| |]; reflexivity.
Qed.

Definition md_net (j : json) : net :=
  NetResponse 10 (json_response 200 "OK" j []).

Lemma markdown_result_witness :
  snd (markdown (mk_config 3 1000 true) http_only (fun _ => md_net (JObj [("success", JBool true)]))
         "https://example.com" "{}" no_request_config)
  = match RJson (JObj [("success", JBool true)]) with
    | RText s | RJson (JStr s) => AOk (VStr s)
    | RJson JNull => AThrow (type_error "Cannot read properties of null (reading 'markdown')")
    | RJson (JObj fs) =>
        AOk (match assoc "markdown" fs with Some j => json_to_jsval j | None => VUndef end)
    | _ => AOk VUndef
    end.
Proof.
  apply markdown_result; reflexivity.
Defined.

(** X12: unlike [markdown], [llm] never resolves with [undefined] or any
    other falsy value except the empty string: what it resolves with is a
    truthy [answer], a string body, or [''] (the fallback for a missing
    or falsy [answer]). *)
Theorem llm_result_truthy_or_empty (cfg : config) (url_valid : string -> bool)
    (nets : nat -> net) (url encodedUrl queryString : string) (rc : request_config)
    (a : jsval)
    (Ha : snd (llm cfg url_valid nets url encodedUrl queryString rc) = AOk a) :
  truthy a = true \/ exists s, a = VStr s.
Proof.
  unfold llm, with_url_check in Ha.
  destruct (validateUrl url_valid url); [discriminate|].
  destruct (retried _ _ _ _) as [tr o]. simpl in Ha.
  destruct o as [v| |]; try discriminate. simpl in Ha. unfold llm_post in Ha.
  destruct (string_response v) as [s|].
  - injection Ha as <-. right. eauto.
  - destruct (get_prop v "answer") as [e|x]; [discriminate|].
    injection Ha as <-. destruct (truthy x) eqn:E; [left; exact E | right; eauto].
Qed.

Lemma llm_result_truthy_or_empty_witness :
  truthy (VStr "") = true \/ exists s, VStr "" = VStr s.
Proof.
  apply (llm_result_truthy_or_empty (mk_config 3 1000 true) http_only
           (fun _ => md_net (JObj [("answer", JNull)])) "https://example.com"
           "https%3A%2F%2Fexample.com" "q=hi" no_request_config).
  reflexivity.
Defined.

(** X13: [testConnection()] (without [throwOnError]) never throws, since
    it pins a 5000 ms timeout and passes no signal: it can only stay
    pending, and only when the health headers come in within those 5000 ms
    and the body then never completes (the timer is cleared before the
    body is read), which does happen; a health response later than
    5000 ms yields [false] even when the client timeout is longer, and
    when the client's [throwOnError] is off any response within that time
    that is decoded (an error status included) yields [true]. *)
Theorem testConnection_result (cfg : config) (n : net) :
  (forall e, testConnection cfg false n <> AThrow e)
  /\ (testConnection cfg false n = AHang ->
      exists t r, n = NetSlowBody t None r /\ t <= HEALTH_CHECK_TIMEOUT)
  /\ (forall t r, n = NetSlowBody t None r -> t <= HEALTH_CHECK_TIMEOUT ->
        returns_stream r = false -> testConnection cfg false n = AHang)
  /\ (forall t r, n = NetResponse t r -> HEALTH_CHECK_TIMEOUT < t ->
        testConnection cfg false n = AOk false)
  /\ (forall t r, n = NetResponse t r -> t <= HEALTH_CHECK_TIMEOUT ->
        throwOnError cfg = false ->
        (includes (response_content_type r) "application/json" = false \/ r_json r <> None) ->
        testConnection cfg false n = AOk true).
Proof.
  split; [|split; [|split; [|split]]].
  - intros e. unfold testConnection. destruct (health _ _ n); discriminate.
  - unfold testConnection. destruct (health _ _ n) eqn:E; try discriminate. intros _.
    apply request_no_signal_hang in E; [|reflexivity].
    destruct E as (t & r & -> & Ht & _). exists t, r. split; [reflexivity | exact Ht].
  - intros t r -> Ht Hr. unfold testConnection, health, request, requestSignal, fetch. simpl.
    unfold req_timeout. simpl. replace (HEALTH_CHECK_TIMEOUT <? t) with false
      by (symmetry; apply Z.ltb_ge; exact Ht).
    unfold handle_slow_body. rewrite Hr. reflexivity.
  - intros t r -> Ht. unfold testConnection, health, request, requestSignal, fetch. simpl.
    unfold req_timeout. simpl. replace (HEALTH_CHECK_TIMEOUT <? t) with true
      by (symmetry; apply Z.ltb_lt; exact Ht).
    rewrite request_catch_name. reflexivity.
  - intros t r -> Ht Hto Hd. unfold testConnection, health, request, requestSignal, fetch.
    simpl. unfold req_timeout. simpl. replace (HEALTH_CHECK_TIMEOUT <? t) with false
      by (symmetry; apply Z.ltb_ge; exact Ht).
    assert (Hc : forall d, check_status cfg "/health"
                   (call_options "GET" None {| rc_timeout := Some HEALTH_CHECK_TIMEOUT;
                                              rc_signal := None; rc_headers := None |}) r d
                   = Ret d).
    { intros d. unfold check_status. rewrite Hto.
      destruct (validateStatus cfg (r_status r)); reflexivity. }
    unfold handle_response. cbv zeta.
    destruct (includes (response_content_type r) "application/json") eqn:Ej.
    + destruct Hd as [Hd|Hd]; [discriminate|].
      destruct (r_json r) as [j|]; [rewrite Hc; reflexivity | congruence].
    + destruct (_ || _); [rewrite Hc; reflexivity|].
      destruct (includes (response_content_type r) "text/event-stream");
        [reflexivity | rewrite Hc; reflexivity].
Qed.

(** X14: [version()] (without [throwOnError]) never throws, for any
    network behaviour: when it resolves, it is with a truthy [version]
    field of the health body or with ['unknown'] (also when the body is
    [null], a text or an object without [version]); it stays pending only
    when the health headers come in within the client timeout and the
    body then never completes. *)
Theorem version_never_throws (cfg : config) (n : net) :
  (forall e, version cfg false n <> AThrow e)
  /\ (forall x, version cfg false n = AOk x -> x = VStr "unknown" \/ truthy x = true)
  /\ (version cfg false n = AHang ->
      exists t r, n = NetSlowBody t None r /\ t <= timeout cfg).
Proof.
  unfold version. cbv zeta.
  destruct (health cfg no_request_config n) as [v|e|] eqn:E.
  - destruct (get_prop v "version") as [e|x].
    + split; [discriminate|]. split; [|discriminate].
      intros x Hx. injection Hx as <-. left; reflexivity.
    + split; [discriminate|]. split; [|discriminate].
      intros y Hy. injection Hy as <-. destruct (truthy x) eqn:T; [right; exact T | left; reflexivity].
  - split; [discriminate|]. split; [|discriminate].
    intros x Hx. injection Hx as <-. left; reflexivity.
  - split; [discriminate|]. split; [discriminate|]. intros _.
    apply request_no_signal_hang in E; [|reflexivity].
    destruct E as (t & r & -> & Ht & _). exists t, r. split; [reflexivity | exact Ht].
Qed.

(** ** Query strings: [buildQueryParams] and [ask] *)

(** A value of the params object: [undefined], a string, or a number kept
    as its [String(n)] rendering (all that [buildQueryParams] uses). *)
Inductive param_value := PUndefined | PString (s : string) | PNumber (rendered : string).

(** [String(value)] *)
Definition param_string (p : param_value) : option string :=
  match p with PUndefined => None | PString s => Some s | PNumber r => Some r end.

(** The [application/x-www-form-urlencoded] serializer of
    [URLSearchParams.toString()], on the UTF-8 bytes of a string: [*-._],
    digits and ASCII letters are kept, a space becomes [+], every other
    byte becomes [%XX] (upper-case hex). *)
Definition form_unreserved (c : ascii) : bool :=
  let n := nat_of_ascii c in
  (n =? 42)%nat || (n =? 45)%nat || (n =? 46)%nat || ((48 <=? n)%nat && (n <=? 57)%nat)
  || ((65 <=? n)%nat && (n <=? 90)%nat) || (n =? 95)%nat
  || ((97 <=? n)%nat && (n <=? 122)%nat).

Definition hex_digit (d : nat) : ascii :=
  if (d <? 10)%nat then ascii_of_nat (48 + d) else ascii_of_nat (55 + d).

Definition enc_char (c : ascii) : string :=
  if form_unreserved c then String c EmptyString
  else if (nat_of_ascii c =? 32)%nat then "+"
  else String "%" (String (hex_digit (nat_of_ascii c / 16))
                     (String (hex_digit (nat_of_ascii c mod 16)) EmptyString)).

Fixpoint form_encode (s : string) : string :=
  match s with
  | EmptyString => EmptyString
  | String c s' => enc_char c ++ form_encode s'
  end.

Fixpoint join_amp (segs : list string) : string :=
  match segs with
  | [] => ""
  | [s] => s
  | s :: segs' => s ++ "&" ++ join_amp segs'
  end.

(** [searchParams.append(key, String(value))] for every defined value,
    in the order of [Object.entries]. *)
Fixpoint defined_params (params : list (string * param_value)) : list (string * string) :=
  match params with
  | [] => []
  | (k, v) :: ps =>
      match param_string v with
      | Some s => (k, s) :: defined_params ps
      | None => defined_params ps
      end
  end.

Definition buildQueryParams (params : list (string * param_value)) : string :=
  join_amp (map (fun kv => form_encode (fst kv) ++ "=" ++ form_encode (snd kv))
                (defined_params params)).

(** The [application/x-www-form-urlencoded] parser (what
    [new URLSearchParams(qs)] yields on the receiving side), used to state
    what the query string carries. *)
Definition hex_val (c : ascii) : option nat :=
  let n := nat_of_ascii c in
  if (48 <=? n)%nat && (n <=? 57)%nat then Some (n - 48)%nat
  else if (65 <=? n)%nat && (n <=? 70)%nat then Some (n - 55)%nat
  else if (97 <=? n)%nat && (n <=? 102)%nat then Some (n - 87)%nat
  else None.

Fixpoint pct_decode (s : string) : string :=
  match s with
  | EmptyString => EmptyString
  | String "+" r => String " " (pct_decode r)
  | String "%" r =>
      match r with
      | String a (String b r') =>
          match hex_val a, hex_val b with
          | Some x, Some y => String (ascii_of_nat (x * 16 + y)) (pct_decode r')
          | _, _ => String "%" (pct_decode r)
          end
      | _ => String "%" (pct_decode r)
      end
  | String c r => String c (pct_decode r)
  end.

Fixpoint split_on (sep : ascii) (s : string) : list string :=
  match s with
  | EmptyString => [EmptyString]
  | String c r =>
      if Ascii.eqb c sep then EmptyString :: split_on sep r
      else match split_on sep r with
           | x :: xs => String c x :: xs
           | [] => [String c EmptyString]
           end
  end.

Fixpoint split_first (sep : ascii) (s : string) : string * string :=
  match s with
  | EmptyString => (EmptyString, EmptyString)
  | String c r =>
      if Ascii.eqb c sep then (EmptyString, r)
      else let '(a, b) := split_first sep r in (String c a, b)
  end.

Definition form_parse (qs : string) : list (string * string) :=
  map (fun seg => let '(n, v) := split_first "=" seg in (pct_decode n, pct_decode v))
      (filter (fun seg => negb (String.eqb seg "")) (split_on "&" qs)).

(** [params?: AskRequest]; numbers as their [String(n)] rendering. *)
Record AskRequest := {
  context_type : option string;
  query : option string;
  score_ratio : option string;
  max_results : option string;
}.

Record AskResponse := {
  context : string;
  type_ : string;
  results_count : nat;
  a_query : option string;
}.

Definition opt_param (o : option string) : param_value :=
  match o with Some s => PString s | None => PUndefined end.

Definition opt_num_param (o : option string) : param_value :=
  match o with Some r => PNumber r | None => PUndefined end.

Definition ask_query_params (params : option AskRequest) : list (string * param_value) :=
  match params with
  | None =>
      [("context_type", PUndefined); ("query", PUndefined); ("score_ratio", PUndefined);
       ("max_results", PUndefined)]
  | Some p =>
      [("context_type", opt_param p.(context_type)); ("query", opt_param p.(query));
       ("score_ratio", opt_num_param p.(score_ratio));
       ("max_results", opt_num_param p.(max_results))]
  end.

(** [`/ask${queryString ? `?${queryString}` : ''}`] *)
Definition ask_endpoint (params : option AskRequest) : string :=
  let queryString := buildQueryParams (ask_query_params params) in
  "/ask" ++ (if String.eqb queryString "" then "" else "?" ++ queryString).

Fixpoint join_with (sep : string) (xs : list string) : string :=
  match xs with
  | [] => ""
  | [x] => x
  | x :: xs' => x ++ sep ++ join_with sep xs'
  end.

(** The string an element contributes to [Array.prototype.join]. *)
Fixpoint js_join_str (j : json) : string :=
  match j with
  | JNull => ""
  | JBool b => if b then "true" else "false"
  | JNum z => z_to_string z
  | JStr s => s
  | JObj _ => "[object Object]"
  | JArr ys => join_with "," (map js_join_str ys)
  end.

(** [r.text] for an element of the results array. *)
Definition elem_text (x : json) : exn + option json :=
  match x with
  | JNull => inl (type_error "Cannot read properties of null (reading 'text')")
  | JObj fs => inr (assoc "text" fs)
  | _ => inr None
  end.

Fixpoint map_text (xs : list json) : exn + list (option json) :=
  match xs with
  | [] => inr []
  | x :: xs' =>
      match elem_text x with
      | inl e => inl e
      | inr t => match map_text xs' with inl e => inl e | inr ts => inr (t :: ts) end
      end
  end.

Definition join_elem (t : option json) : string :=
  match t with Some j => js_join_str j | None => "" end.

(** [a || b]: [a] when truthy, else the thunk [b]. *)
Definition js_or (a : exn + jsval) (b : unit -> exn + jsval) : exn + jsval :=
  match a with
  | inl e => inl e
  | inr x => if truthy x then inr x else b tt
  end.

(** ['\n\n'] *)
Definition LFLF : string := String "010" (String "010" EmptyString).

(** [(params?.context_type || 'doc')] *)
Definition ask_type (params : option AskRequest) : string :=
  match params with
  | Some p => match p.(context_type) with
              | Some c => if String.eqb c "" then "doc" else c
              | None => "doc"
              end
  | None => "doc"
  end.

(** [result.query = params.query] when [params?.query !== undefined]. *)
Definition ask_query (params : option AskRequest) : option string :=
  match params with Some p => p.(query) | None => None end.

(** The post-processing of [ask] on the resolved body. *)
Definition ask_post (params : option AskRequest) (response : rvalue) : exn + AskResponse :=
  match js_or (get_prop response "doc_results") (fun _ =>
        js_or (get_prop response "code_results") (fun _ =>
          js_or (get_prop response "all_results") (fun _ => inr (VJson (JArr []))))) with
  | inl e => inl e
  | inr (VJson (JArr xs)) =>
      match map_text xs with
      | inl e => inl e
      | inr ts =>
          inr {| context := join_with LFLF (map join_elem ts);
                 type_ := ask_type params;
                 results_count := length xs;
                 a_query := ask_query params |}
      end
  | inr _ => inl (type_error "results.map is not a function")
  end.

(** [ask(params, config)] *)
Definition ask (cfg : config) (nets : nat -> net) (params : option AskRequest)
    (rc : request_config) : list ev * api AskResponse :=
  let '(tr, o) := retried cfg nets (ask_endpoint params) (call_options "GET" None rc) in
  (tr, then_post o (ask_post params)).

Fixpoint has_char (c : ascii) (s : string) : bool :=
  match s with
  | EmptyString => false
  | String d s' => Ascii.eqb d c || has_char c s'
  end.

Lemma str_app_assoc (a b c : string) : (a ++ b) ++ c = a ++ (b ++ c).
Proof. induction a as [|x a IH]; simpl; [reflexivity | rewrite IH; reflexivity]. Qed.

Lemma str_app_nil (a : string) : a ++ "" = a.
Proof. induction a as [|x a IH]; simpl; [reflexivity | rewrite IH; reflexivity]. Qed.

Lemma has_char_app (c : ascii) (a b : string) :
  has_char c (a ++ b) = has_char c a || has_char c b.
Proof.
  induction a as [|x a IH]; simpl; [reflexivity|]. rewrite IH, orb_assoc. reflexivity.
Qed.

Lemma pct_decode_enc_char (c : ascii) (t : string) :
  pct_decode (enc_char c ++ t) = String c (pct_decode t).
Proof. destruct c as [[] [] [] [] [] [] [] []]; reflexivity. Qed.

Lemma enc_char_no_sep (c : ascii) :
  has_char "&" (enc_char c) = false /\ has_char "=" (enc_char c) = false.
Proof. destruct c as [[] [] [] [] [] [] [] []]; split; reflexivity. Qed.

Lemma pct_decode_form_encode (s t : string) :
  pct_decode (form_encode s ++ t) = s ++ pct_decode t.
Proof.
  induction s as [|c s IH]; [reflexivity|].
  simpl. rewrite str_app_assoc, pct_decode_enc_char, IH. reflexivity.
Qed.

Lemma form_encode_no_sep (s : string) :
  has_char "&" (form_encode s) = false /\ has_char "=" (form_encode s) = false.
Proof.
  induction s as [|c s [IH1 IH2]]; [split; reflexivity|].
  simpl. rewrite !has_char_app, IH1, IH2.
  destruct (enc_char_no_sep c) as [-> ->]. split; reflexivity.
Qed.

Lemma split_on_app (sep : ascii) (a b : string) :
  has_char sep a = false -> split_on sep (a ++ String sep b) = a :: split_on sep b.
Proof.
  induction a as [|c a IH]; intros H.
  - simpl. rewrite Ascii.eqb_refl. reflexivity.
  - simpl in H |- *. apply orb_false_iff in H as [Hc Ha]. rewrite Hc, IH by exact Ha.
    reflexivity.
Qed.

Lemma split_on_single (sep : ascii) (a : string) :
  has_char sep a = false -> split_on sep a = [a].
Proof.
  induction a as [|c a IH]; intros H; [reflexivity|].
  simpl in H |- *. apply orb_false_iff in H as [Hc Ha]. rewrite Hc, IH by exact Ha.
  reflexivity.
Qed.

Lemma split_first_app (sep : ascii) (a b : string) :
  has_char sep a = false -> split_first sep (a ++ String sep b) = (a, b).
Proof.
  induction a as [|c a IH]; intros H.
  - simpl. rewrite Ascii.eqb_refl. reflexivity.
  - simpl in H |- *. apply orb_false_iff in H as [Hc Ha]. rewrite Hc, IH by exact Ha.
    reflexivity.
Qed.

Lemma split_join_amp (segs : list string) :
  segs <> [] -> Forall (fun s => has_char "&" s = false) segs ->
  split_on "&" (join_amp segs) = segs.
Proof.
  induction segs as [|s segs IH]; intros Hne Hf; [congruence|].
  inversion Hf as [|? ? Hs Hf']; subst.
  destruct segs as [|s' segs].
  - simpl. apply split_on_single, Hs.
  - change (join_amp (s :: s' :: segs)) with (s ++ String "&" (join_amp (s' :: segs))).
    rewrite split_on_app by exact Hs. rewrite IH by (discriminate || exact Hf'). reflexivity.
Qed.

Definition query_pair (kv : string * string) : string :=
  form_encode (fst kv) ++ "=" ++ form_encode (snd kv).

Lemma query_pair_nonempty (kv : string * string) : String.eqb (query_pair kv) "" = false.
Proof. unfold query_pair. destruct (form_encode (fst kv)); reflexivity. Qed.

Lemma join_amp_nonempty (segs : list string) :
  Forall (fun s => String.eqb s "" = false) segs -> segs <> [] ->
  String.eqb (join_amp segs) "" = false.
Proof.
  intros Hf Hne. destruct segs as [|s [|s' segs]]; [congruence| |].
  - inversion Hf; assumption.
  - inversion Hf as [|? ? Hs _]; subst. simpl. destruct s; [discriminate | reflexivity].
Qed.

Lemma buildQueryParams_parse (params : list (string * param_value)) :
  form_parse (buildQueryParams params) = defined_params params
  /\ (String.eqb (buildQueryParams params) "" = true <-> defined_params params = []).
Proof.
  unfold buildQueryParams. fold query_pair.
  destruct (defined_params params) as [|kv ds] eqn:E.
  - split; [reflexivity | split; reflexivity].
  - assert (Hsegs : Forall (fun s => has_char "&" s = false) (map query_pair (kv :: ds))).
    { apply Forall_forall. intros s Hs. apply in_map_iff in Hs as [[k v] [<- _]].
      unfold query_pair. simpl. rewrite !has_char_app. simpl.
      destruct (form_encode_no_sep k) as [-> _]. destruct (form_encode_no_sep v) as [-> _].
      reflexivity. }
    assert (Hne : Forall (fun s => String.eqb s "" = false) (map query_pair (kv :: ds))).
    { apply Forall_forall. intros s Hs. apply in_map_iff in Hs as [kv' [<- _]].
      apply query_pair_nonempty. }
    split.
    + unfold form_parse. rewrite split_join_amp by (discriminate || exact Hsegs).
      rewrite forallb_filter_id.
      * rewrite map_map. clear Hsegs Hne E. induction (kv :: ds) as [|[k v] l IH]; [reflexivity|].
        simpl. rewrite IH. unfold query_pair. simpl.
        rewrite split_first_app by apply (proj2 (form_encode_no_sep k)).
        rewrite <- (str_app_nil (form_encode k)), pct_decode_form_encode.
        rewrite <- (str_app_nil (form_encode v)), pct_decode_form_encode.
        simpl. rewrite !str_app_nil. reflexivity.
      * apply forallb_forall. intros s Hs. rewrite Forall_forall in Hne.
        rewrite (Hne s Hs). reflexivity.
    + rewrite join_amp_nonempty by (exact Hne || discriminate). split; discriminate.
Qed.

(** X15: [buildQueryParams] drops the [undefined] values and keeps the
    others in order: parsing its result as [application/x-www-form-urlencoded]
    gives back exactly the defined pairs with their [String(value)], whatever
    characters names and values contain ([&], [=], [+], [%], spaces, any
    byte); and the result is empty exactly when no value is defined. *)
Theorem buildQueryParams_roundtrip (params : list (string * param_value)) :
  form_parse (buildQueryParams params) = defined_params params
  /\ (String.eqb (buildQueryParams params) "" = true <-> defined_params params = []).
Proof. apply buildQueryParams_parse. Qed.

Definition opt_pair (k : string) (o : option string) : list (string * string) :=
  match o with Some s => [(k, s)] | None => [] end.

(** X16: [ask] sends its request to [/ask] when no parameter is given, and
    otherwise to [/ask?] followed by a query string that carries exactly
    the given ones among [context_type], [query], [score_ratio] and
    [max_results], in that order. *)
Theorem ask_endpoint_params (p : AskRequest) :
  let given := (opt_pair "context_type" p.(context_type) ++ opt_pair "query" p.(query)
                ++ opt_pair "score_ratio" p.(score_ratio)
                ++ opt_pair "max_results" p.(max_results))%list in
  ask_endpoint None = "/ask"
  /\ (given = [] -> ask_endpoint (Some p) = "/ask")
  /\ (given <> [] -> exists qs, ask_endpoint (Some p) = "/ask?" ++ qs /\ form_parse qs = given).
Proof.
  intros given.
  assert (Hd : defined_params (ask_query_params (Some p)) = given).
  { unfold given. destruct p as [[c|] [q|] [s|] [m|]]; reflexivity. }
  destruct (buildQueryParams_parse (ask_query_params (Some p))) as [Hr Hz].
  rewrite Hd in Hr, Hz. unfold ask_endpoint.
  split; [reflexivity|]. split.
  - intros Hg. apply Hz in Hg. rewrite Hg. apply str_app_nil.
  - intros Hg. destruct (String.eqb (buildQueryParams (ask_query_params (Some p))) "") eqn:E.
    + exfalso. apply Hg, Hz, eq_refl.
    + eexists. split; [reflexivity | exact Hr].
Qed.

Lemma js_or_falsy (x : jsval) (b : unit -> exn + jsval) :
  truthy x = false -> js_or (inr x) b = b tt.
Proof. intros H. unfold js_or. rewrite H. reflexivity. Qed.

Lemma map_text_texts (xs : list json) (ss : list string) :
  Forall2 (fun x s => exists gs, x = JObj gs /\ assoc "text" gs = Some (JStr s)) xs ss ->
  map_text xs = inr (map (fun s => Some (JStr s)) ss).
Proof.
  induction 1 as [|x s xs ss [gs [-> Hg]] _ IH]; [reflexivity|].
  simpl. rewrite Hg, IH. reflexivity.
Qed.

Definition ask_keys : list string := ["doc_results"; "code_results"; "all_results"].

(** X17: [ask] takes its results from the first of [doc_results],
    [code_results], [all_results] that is truthy; an array found there,
    whose elements carry [text] strings, gives [results_count] = its
    length and [context] = the texts joined by a blank line, even when
    the array is empty and a later key holds results; [type] is the
    given [context_type], or ['doc'] when it is missing or empty, and
    [query] is copied when given. *)
Theorem ask_results_pick (cfg : config) (nets : nat -> net) (params : option AskRequest)
    (rc : request_config) (fs : list (string * json)) (pre post : list string) (k : string)
    (xs : list json) (ss : list string)
    (Hr : snd (retried cfg nets (ask_endpoint params) (call_options "GET" None rc))
          = Ret (RJson (JObj fs)))
    (Hk : (pre ++ k :: post)%list = ask_keys)
    (Hpre : forall k', In k' pre ->
              match assoc k' fs with Some j => truthy (json_to_jsval j) = false | None => True end)
    (Hx : assoc k fs = Some (JArr xs))
    (Ht : Forall2 (fun x s => exists gs, x = JObj gs /\ assoc "text" gs = Some (JStr s)) xs ss) :
  snd (ask cfg nets params rc)
  = AOk {| context := join_with LFLF ss; type_ := ask_type params;
           results_count := length xs; a_query := ask_query params |}.
Proof.
  assert (Hf : forall k', In k' pre -> exists x, get_prop (RJson (JObj fs)) k' = inr x
                                               /\ truthy x = false).
  { intros k' Hin. specialize (Hpre k' Hin). simpl.
    destruct (assoc k' fs); eexists; split; [reflexivity | exact Hpre | reflexivity | reflexivity]. }
  assert (Hpost : forall b, js_or (get_prop (RJson (JObj fs)) k) b = inr (VJson (JArr xs))).
  { intros b. simpl. rewrite Hx. reflexivity. }
  unfold ask. destruct (retried cfg nets (ask_endpoint params) (call_options "GET" None rc))
    as [tr o]. simpl in Hr |- *. subst o. simpl then_post. unfold ask_post.
  assert (Hsel : js_or (get_prop (RJson (JObj fs)) "doc_results") (fun _ =>
                   js_or (get_prop (RJson (JObj fs)) "code_results") (fun _ =>
                     js_or (get_prop (RJson (JObj fs)) "all_results")
                       (fun _ => inr (VJson (JArr [])))))
                 = inr (VJson (JArr xs))).
  { unfold ask_keys in Hk.
    destruct pre as [|a [|b [|c pre]]]; simpl in Hk; inversion Hk; subst.
    - apply Hpost.
    - destruct (Hf "doc_results") as [x [-> Hx']]; [left; reflexivity|].
      rewrite js_or_falsy by exact Hx'. apply Hpost.
    - destruct (Hf "doc_results") as [x [-> Hx']]; [left; reflexivity|].
      rewrite js_or_falsy by exact Hx'.
      destruct (Hf "code_results") as [y [-> Hy']]; [right; left; reflexivity|].
      rewrite js_or_falsy by exact Hy'. apply Hpost.
    - destruct pre; discriminate. }
  rewrite Hsel, (map_text_texts xs ss Ht), map_map. simpl.
  rewrite map_id. reflexivity.
Qed.

Definition ask_body_fields : list (string * json) :=
  [("doc_results", JNull);
   ("code_results", JArr [JObj [("text", JStr "a"); ("score", JNum 1)];
                          JObj [("text", JStr "b")]]);
   ("all_results", JArr [JObj [("text", JStr "z")]])].

Definition ask_params : AskRequest :=
  {| context_type := Some "code"; query := Some "sort"; score_ratio := None;
     max_results := None |}.

Lemma ask_results_pick_witness :
  snd (ask (mk_config 3 1000 true) (fun _ => md_net (JObj ask_body_fields))
         (Some ask_params) no_request_config)
  = AOk {| context := join_with LFLF ["a"; "b"]; type_ := ask_type (Some ask_params);
           results_count := length [JObj [("text", JStr "a"); ("score", JNum 1)];
                                    JObj [("text", JStr "b")]];
           a_query := ask_query (Some ask_params) |}
  /\ join_with LFLF ["a"; "b"] = "a" ++ LFLF ++ "b".
Proof.
  split; [|reflexivity].
  apply (ask_results_pick _ _ (Some ask_params) no_request_config ask_body_fields
           ["doc_results"] ["all_results"] "code_results"
           [JObj [("text", JStr "a"); ("score", JNum 1)]; JObj [("text", JStr "b")]]
           ["a"; "b"]).
  - reflexivity.
  - reflexivity.
  - intros k' [<- | []]. reflexivity.
  - reflexivity.
  - repeat constructor; eexists; split; reflexivity.
Defined.

(** X18: when the body has none of [doc_results], [code_results],
    [all_results] truthy (an object without them, a text or stream body,
    an array, a number), [ask] resolves with an empty [context] and
    [results_count] 0, not an error. *)
Theorem ask_no_results (cfg : config) (nets : nat -> net) (params : option AskRequest)
    (rc : request_config) (v : rvalue)
    (Hr : snd (retried cfg nets (ask_endpoint params) (call_options "GET" None rc)) = Ret v)
    (Hnone : forall k, In k ask_keys -> exists x, get_prop v k = inr x /\ truthy x = false) :
  snd (ask cfg nets params rc)
  = AOk {| context := ""; type_ := ask_type params; results_count := 0;
           a_query := ask_query params |}.
Proof.
  unfold ask. destruct (retried cfg nets (ask_endpoint params) (call_options "GET" None rc))
    as [tr o]. simpl in Hr |- *. subst o. simpl then_post. unfold ask_post.
  destruct (Hnone "doc_results") as [x [-> Hx]]; [left; reflexivity|].
  destruct (Hnone "code_results") as [y [-> Hy]]; [right; left; reflexivity|].
  destruct (Hnone "all_results") as [z [-> Hz]]; [right; right; left; reflexivity|].
  rewrite !js_or_falsy by assumption. reflexivity.
Qed.

Lemma ask_no_results_witness :
  snd (ask (mk_config 3 1000 true) (fun _ => md_net (JObj [("doc_results", JNull)]))
         (Some {| context_type := Some ""; query := Some "q"; score_ratio := None;
                  max_results := None |}) no_request_config)
  = AOk {| context := ""; type_ := ask_type (Some {| context_type := Some ""; query := Some "q";
                                                     score_ratio := None; max_results := None |});
           results_count := 0;
           a_query := ask_query (Some {| context_type := Some ""; query := Some "q";
                                         score_ratio := None; max_results := None |}) |}.
Proof.
  apply (ask_no_results _ _ _ _ (RJson (JObj [("doc_results", JNull)]))).
  - reflexivity.
  - intros k Hk. simpl in Hk. destruct Hk as [<-|[<-|[<-|[]]]]; eexists; split; reflexivity.
Defined.

(** ** Client construction and mutation ([constructor], [setApiToken],
    [setBaseUrl]) *)

(** A JavaScript number: a finite value (a rational, which covers every
    finite double) or one of the non-finite values. *)
Inductive jsnum := NFin (q : Q) | NPosInf | NNegInf | NNaN.

(** [x <= 0] and [x < 0]: every comparison with [NaN] is false. *)
Definition js_le0 (x : jsnum) : bool :=
  match x with NFin q => Qle_bool q 0 | NNegInf => true | _ => false end.

Definition js_lt0 (x : jsnum) : bool :=
  match x with NFin q => negb (Qle_bool 0 q) | NNegInf => true | _ => false end.

Definition isFinite (x : jsnum) : bool := match x with NFin _ => true | _ => false end.

Definition isInteger (x : jsnum) : bool :=
  match x with NFin q => (Qnum q mod Zpos (Qden q) =? 0) | _ => false end.

(** An optional property of an object literal: left out, present with the
    value [undefined], or given. *)
Inductive jsopt (A : Type) := Absent | Undef | Given (a : A).
Arguments Absent {A}.
Arguments Undef {A}.
Arguments Given {A} a.

(** [Crawl4AIConfig] *)
Record Crawl4AIConfig := {
  cc_baseUrl : string;
  cc_apiToken : jsopt string;
  cc_timeout : jsopt jsnum;
  cc_retries : jsopt jsnum;
  cc_retryDelay : jsopt jsnum;
  cc_defaultHeaders : jsopt (list (string * string));
  cc_throwOnError : jsopt bool;
  cc_validateStatus : jsopt (Z -> bool);
  cc_debug : jsopt bool;
}.

(** [this.config] of a constructed client; a field copied by the spread
    [...config] is [None] when it holds [undefined]. *)
Record client_state := {
  st_baseUrl : string;
  st_apiToken : option string;
  st_timeout : option jsnum;
  st_retries : option jsnum;
  st_retryDelay : option jsnum;
  st_defaultHeaders : list (string * string);
  st_throwOnError : bool;
  st_validateStatus : Z -> bool;
  st_debug : option bool;
}.

(** [s.replace(/\/$/, '')]: drop one trailing slash. *)
Fixpoint strip_trailing_slash (s : string) : string :=
  match s with
  | EmptyString => EmptyString
  | String c EmptyString => if Ascii.eqb c "/" then EmptyString else s
  | String c r => String c (strip_trailing_slash r)
  end.

(** [o[k] = v] on a plain object: an existing key keeps its place, a new
    key is added last. *)
Fixpoint obj_set (k v : string) (o : list (string * string)) : list (string * string) :=
  match o with
  | [] => [(k, v)]
  | (k', v') :: o' => if String.eqb k k' then (k, v) :: o' else (k', v') :: obj_set k v o'
  end.

(** [{ ...a, ...b }] *)
Definition obj_assign (a b : list (string * string)) : list (string * string) :=
  fold_left (fun o kv => obj_set (fst kv) (snd kv) o) b a.

(** [delete o[k]] *)
Definition obj_delete (k : string) (o : list (string * string)) : list (string * string) :=
  filter (fun kv => negb (String.eqb (fst kv) k)) o.

Definition DEFAULT_TIMEOUT : jsnum := NFin 300000.
Definition DEFAULT_RETRIES : jsnum := NFin 3.
Definition DEFAULT_RETRY_DELAY : jsnum := NFin 1000.

(** Property [k] of [{ ...defaults, ...config }]: an own property of
    [config] wins even when it is [undefined]. *)
Definition spread_prop {A} (o : jsopt A) (d : A) : option A :=
  match o with Absent => Some d | Undef => None | Given x => Some x end.

(** [config.k ?? d], [config.k || d] for a function, and the spread
    [...config.k] of an object: [undefined] acts as absent. *)
Definition given_or {A} (o : jsopt A) (d : A) : A :=
  match o with Given x => x | _ => d end.

(** [config.k !== undefined && bad(config.k)] *)
Definition given_and {A} (o : jsopt A) (bad : A -> bool) : bool :=
  match o with Given x => bad x | _ => false end.

(** [new Crawl4AI(config)]: the [RequestValidationError] thrown (with its
    [field]) or the resulting [this.config].  [url_valid u] says that
    [new URL(u)] succeeds. *)
Definition Crawl4AI_new (url_valid : string -> bool) (config : Crawl4AIConfig)
    : (c4err * string) + client_state :=
  if String.eqb config.(cc_baseUrl) "" then
    inl (RequestValidationError "baseUrl is required in configuration", "baseUrl")
  else if negb (url_valid config.(cc_baseUrl)) then
    inl (RequestValidationError ("Invalid baseUrl: " ++ config.(cc_baseUrl)), "baseUrl")
  else if given_and config.(cc_timeout) (fun t => js_le0 t || negb (isFinite t)) then
    inl (RequestValidationError "timeout must be a positive number", "timeout")
  else if given_and config.(cc_retries) (fun r => js_lt0 r || negb (isInteger r)) then
    inl (RequestValidationError "retries must be a non-negative integer", "retries")
  else if given_and config.(cc_retryDelay) (fun d => js_lt0 d || negb (isFinite d)) then
    inl (RequestValidationError "retryDelay must be a non-negative number", "retryDelay")
  else
    let apiToken := spread_prop config.(cc_apiToken) "" in
    let headers := obj_assign [("Content-Type", "application/json")]
                              (given_or config.(cc_defaultHeaders) []) in
    inr {| st_baseUrl := strip_trailing_slash config.(cc_baseUrl);
           st_apiToken := apiToken;
           st_timeout := spread_prop config.(cc_timeout) DEFAULT_TIMEOUT;
           st_retries := spread_prop config.(cc_retries) DEFAULT_RETRIES;
           st_retryDelay := spread_prop config.(cc_retryDelay) DEFAULT_RETRY_DELAY;
           st_defaultHeaders :=
             (* [if (this.config.apiToken)] *)
             match apiToken with
             | Some t => if String.eqb t "" then headers
                         else obj_set "Authorization" ("Bearer " ++ t) headers
             | None => headers
             end;
           st_throwOnError := given_or config.(cc_throwOnError) true;
           st_validateStatus := given_or config.(cc_validateStatus) default_validateStatus;
           st_debug := spread_prop config.(cc_debug) false |}.

Definition with_headers_token (st : client_state) (token : string)
    (h : list (string * string)) : client_state :=
  {| st_baseUrl := st.(st_baseUrl); st_apiToken := Some token; st_timeout := st.(st_timeout);
     st_retries := st.(st_retries); st_retryDelay := st.(st_retryDelay);
     st_defaultHeaders := h; st_throwOnError := st.(st_throwOnError);
     st_validateStatus := st.(st_validateStatus); st_debug := st.(st_debug) |}.

(** [setApiToken(token)] *)
Definition setApiToken (st : client_state) (token : string) : client_state :=
  with_headers_token st token
    (if String.eqb token "" then obj_delete "Authorization" st.(st_defaultHeaders)
     else obj_set "Authorization" ("Bearer " ++ token) st.(st_defaultHeaders)).

(** [setBaseUrl(baseUrl)] *)
Definition setBaseUrl (st : client_state) (baseUrl : string) : client_state :=
  {| st_baseUrl := strip_trailing_slash baseUrl; st_apiToken := st.(st_apiToken);
     st_timeout := st.(st_timeout); st_retries := st.(st_retries);
     st_retryDelay := st.(st_retryDelay); st_defaultHeaders := st.(st_defaultHeaders);
     st_throwOnError := st.(st_throwOnError); st_validateStatus := st.(st_validateStatus);
     st_debug := st.(st_debug) |}.

Definition number_ok_timeout (x : jsnum) : Prop := exists q, x = NFin q /\ (0 < q)%Q.
Definition number_ok_retries (x : jsnum) : Prop :=
  exists q, x = NFin q /\ (0 <= q)%Q /\ (Qnum q mod Zpos (Qden q) = 0).
Definition number_ok_delay (x : jsnum) : Prop := exists q, x = NFin q /\ (0 <= q)%Q.

Lemma timeout_check_ok (t : jsnum) :
  (js_le0 t || negb (isFinite t)) = false -> number_ok_timeout t.
Proof.
  destruct t as [q| | |]; simpl; try discriminate.
  rewrite orb_false_r. intros H. exists q. split; [reflexivity|].
  apply Qnot_le_lt. intros Hq. apply Qle_bool_iff in Hq. congruence.
Qed.

Lemma retries_check_ok (r : jsnum) :
  (js_lt0 r || negb (isInteger r)) = false -> number_ok_retries r.
Proof.
  destruct r as [q| | |]; simpl; try discriminate.
  intros H. apply orb_false_iff in H as [H1 H2]. apply negb_false_iff in H1, H2.
  exists q. split; [reflexivity|]. split.
  - apply Qle_bool_iff, H1.
  - apply Z.eqb_eq, H2.
Qed.

Lemma delay_check_ok (d : jsnum) :
  (js_lt0 d || negb (isFinite d)) = false -> number_ok_delay d.
Proof.
  destruct d as [q| | |]; simpl; try discriminate.
  rewrite orb_false_r. intros H. apply negb_false_iff in H.
  exists q. split; [reflexivity | apply Qle_bool_iff, H].
Qed.

(** X19: a client that the constructor accepts holds, for each of
    [timeout], [retries] and [retryDelay], either a valid number (given or
    default: a finite positive [timeout], a non-negative integer
    [retries], a finite non-negative [retryDelay]; [NaN], the infinities,
    a zero or negative timeout, a negative or fractional retry count are
    all rejected) or [undefined], and [undefined] only when the option was
    passed explicitly as [undefined], which skips its validation. *)
Theorem Crawl4AI_new_numbers (url_valid : string -> bool) (config : Crawl4AIConfig)
    (st : client_state)
    (Hok : Crawl4AI_new url_valid config = inr st) :
  match st.(st_timeout) with
  | Some x => number_ok_timeout x | None => config.(cc_timeout) = Undef end
  /\ match st.(st_retries) with
     | Some x => number_ok_retries x | None => config.(cc_retries) = Undef end
  /\ match st.(st_retryDelay) with
     | Some x => number_ok_delay x | None => config.(cc_retryDelay) = Undef end.
Proof.
  unfold Crawl4AI_new, given_and in Hok.
  destruct (String.eqb (cc_baseUrl config) ""); [discriminate|].
  destruct (negb (url_valid (cc_baseUrl config))); [discriminate|].
  destruct (cc_timeout config) as [ | | t] eqn:Et;
    [| | destruct (js_le0 t || negb (isFinite t)) eqn:Ht; [discriminate|] ];
  (destruct (cc_retries config) as [ | | r] eqn:Er;
    [| | destruct (js_lt0 r || negb (isInteger r)) eqn:Hr; [discriminate|] ]);
  (destruct (cc_retryDelay config) as [ | | d] eqn:Ed;
    [| | destruct (js_lt0 d || negb (isFinite d)) eqn:Hd; [discriminate|] ]);
  injection Hok as <-; simpl; rewrite ?Et, ?Er, ?Ed; simpl;
  repeat split;
  first [ reflexivity
        | apply timeout_check_ok; assumption
        | apply retries_check_ok; assumption
        | apply delay_check_ok; assumption
        | eexists; split; [reflexivity|]; first [split; [|reflexivity] | idtac];
          unfold Qlt, Qle; simpl; lia ].
Qed.

Definition sample_config : Crawl4AIConfig :=
  {| cc_baseUrl := "http://localhost:11235/"; cc_apiToken := Given "tok";
     cc_timeout := Given (NFin (1 # 2)); cc_retries := Given (NFin (4 # 2));
     cc_retryDelay := Absent;
     cc_defaultHeaders := Given [("Authorization", "Basic x"); ("X-Trace", "1")];
     cc_throwOnError := Absent; cc_validateStatus := Absent; cc_debug := Absent |}.

(** [{ baseUrl, timeout: undefined, retries: 2 }] *)
Definition undefined_timeout_config : Crawl4AIConfig :=
  {| cc_baseUrl := "http://localhost:11235"; cc_apiToken := Undef;
     cc_timeout := Undef; cc_retries := Given (NFin 2); cc_retryDelay := Absent;
     cc_defaultHeaders := Undef; cc_throwOnError := Undef; cc_validateStatus := Absent;
     cc_debug := Undef |}.

Lemma Crawl4AI_new_numbers_witness :
  exists st, Crawl4AI_new http_only undefined_timeout_config = inr st
  /\ st.(st_timeout) = None
  /\ (match st.(st_timeout) with
      | Some x => number_ok_timeout x | None => undefined_timeout_config.(cc_timeout) = Undef end
      /\ match st.(st_retries) with
         | Some x => number_ok_retries x
         | None => undefined_timeout_config.(cc_retries) = Undef end
      /\ match st.(st_retryDelay) with
         | Some x => number_ok_delay x
         | None => undefined_timeout_config.(cc_retryDelay) = Undef end).
Proof.
  eexists. split; [reflexivity|]. split; [reflexivity|].
  apply (Crawl4AI_new_numbers http_only undefined_timeout_config). reflexivity.
Defined.

Lemma assoc_obj_set (k k' v : string) (o : list (string * string)) :
  assoc k (obj_set k' v o) = if String.eqb k k' then Some v else assoc k o.
Proof.
  induction o as [|[k0 v0] o IH]; simpl.
  - reflexivity.
  - destruct (String.eqb k' k0) eqn:E0.
    + apply String.eqb_eq in E0. subst k0. simpl.
      destruct (String.eqb k k'); reflexivity.
    + simpl. destruct (String.eqb k k0) eqn:E1; [|exact IH].
      apply String.eqb_eq in E1. subst k0.
      destruct (String.eqb k k') eqn:E2; [|reflexivity].
      apply String.eqb_eq in E2. subst k'. rewrite String.eqb_refl in E0. discriminate.
Qed.

Lemma assoc_not_in {A} (k : string) (l : list (string * A)) :
  ~ In k (map fst l) -> assoc k l = None.
Proof.
  induction l as [|[k' v] l IH]; intros H; [reflexivity|]. simpl in *.
  destruct (String.eqb k k') eqn:E.
  - apply String.eqb_eq in E. subst. exfalso. apply H. left. reflexivity.
  - apply IH. intros Hin. apply H. right. exact Hin.
Qed.

Lemma assoc_obj_assign (k : string) :
  forall (b a : list (string * string)), NoDup (map fst b) ->
  assoc k (obj_assign a b) = match assoc k b with Some v => Some v | None => assoc k a end.
Proof.
  induction b as [|[k' v'] b IH]; intros a Hnd; [reflexivity|].
  inversion Hnd as [|? ? Hnin Hnd']; subst.
  unfold obj_assign. simpl. fold (obj_assign (obj_set k' v' a) b).
  rewrite IH by exact Hnd'. rewrite assoc_obj_set.
  destruct (String.eqb k k') eqn:E.
  - apply String.eqb_eq in E. subst k'. rewrite assoc_not_in by exact Hnin. reflexivity.
  - destruct (assoc k b); reflexivity.
Qed.

(** X20: in the headers of a constructed client, [Authorization] is
    ["Bearer <apiToken>"] when a non-empty token is given (replacing an
    [Authorization] passed in [defaultHeaders]) and otherwise (no token,
    an empty one, or [apiToken: undefined]) whatever [defaultHeaders]
    says; [Content-Type] is the caller's or ["application/json"]; every
    other header is the caller's ([defaultHeaders: undefined] counting as
    none).  The stored base URL is the given one with one trailing slash
    removed, [throwOnError] defaults to [true] (also when passed as
    [undefined]), and the stored token is the spread one. *)
Theorem Crawl4AI_new_headers (url_valid : string -> bool) (config : Crawl4AIConfig)
    (st : client_state)
    (Hok : Crawl4AI_new url_valid config = inr st)
    (Hnd : NoDup (map fst (given_or config.(cc_defaultHeaders) []))) :
  let user := given_or config.(cc_defaultHeaders) [] in
  assoc "Authorization" st.(st_defaultHeaders)
    = match spread_prop config.(cc_apiToken) "" with
      | Some t => if String.eqb t "" then assoc "Authorization" user
                  else Some ("Bearer " ++ t)
      | None => assoc "Authorization" user
      end
  /\ assoc "Content-Type" st.(st_defaultHeaders)
     = match assoc "Content-Type" user with Some v => Some v | None => Some "application/json" end
  /\ (forall k, k <> "Authorization" -> k <> "Content-Type" ->
        assoc k st.(st_defaultHeaders) = assoc k user)
  /\ st.(st_baseUrl) = strip_trailing_slash config.(cc_baseUrl)
  /\ st.(st_throwOnError) = given_or config.(cc_throwOnError) true
  /\ st.(st_apiToken) = spread_prop config.(cc_apiToken) "".
Proof.
  intros user.
  unfold Crawl4AI_new in Hok.
  destruct (String.eqb (cc_baseUrl config) ""); [discriminate|].
  destruct (negb (url_valid (cc_baseUrl config))); [discriminate|].
  destruct (given_and (cc_timeout config) _); [discriminate|].
  destruct (given_and (cc_retries config) _); [discriminate|].
  destruct (given_and (cc_retryDelay config) _); [discriminate|].
  injection Hok as <-. cbn [st_defaultHeaders st_baseUrl st_throwOnError st_apiToken].
  fold user.
  assert (Hl : forall k, assoc k (obj_assign [("Content-Type", "application/json")] user)
                         = match assoc k user with
                           | Some v => Some v
                           | None => if String.eqb k "Content-Type"
                                     then Some "application/json" else None
                           end).
  { intros k. rewrite assoc_obj_assign by exact Hnd. reflexivity. }
  assert (Hu : forall k, k <> "Authorization" ->
            assoc k (match spread_prop (cc_apiToken config) "" with
                     | Some t => if String.eqb t "" then
                                   obj_assign [("Content-Type", "application/json")] user
                                 else obj_set "Authorization" ("Bearer " ++ t)
                                        (obj_assign [("Content-Type", "application/json")] user)
                     | None => obj_assign [("Content-Type", "application/json")] user
                     end)
            = assoc k (obj_assign [("Content-Type", "application/json")] user)).
  { intros k Ha. assert (Ea : String.eqb k "Authorization" = false)
      by (apply String.eqb_neq; exact Ha).
    destruct (spread_prop (cc_apiToken config) "") as [t|]; [|reflexivity].
    destruct (String.eqb t ""); [reflexivity|]. rewrite assoc_obj_set, Ea. reflexivity. }
  split; [|split; [|split; [|split; [|split]]]]; try reflexivity.
  - destruct (spread_prop (cc_apiToken config) "") as [t|];
      [destruct (String.eqb t ""); [|rewrite assoc_obj_set; reflexivity]|];
      rewrite Hl; destruct (assoc "Authorization" user); reflexivity.
  - rewrite Hu by discriminate. rewrite Hl. destruct (assoc "Content-Type" user); reflexivity.
  - intros k Ha Hc. rewrite Hu by exact Ha. rewrite Hl.
    assert (Ec : String.eqb k "Content-Type" = false) by (apply String.eqb_neq; exact Hc).
    rewrite Ec. destruct (assoc k user); reflexivity.
Qed.

Lemma Crawl4AI_new_headers_witness :
  exists st, Crawl4AI_new http_only sample_config = inr st
  /\ (let user := given_or sample_config.(cc_defaultHeaders) [] in
      assoc "Authorization" st.(st_defaultHeaders)
        = match spread_prop sample_config.(cc_apiToken) "" with
          | Some t => if String.eqb t "" then assoc "Authorization" user
                      else Some ("Bearer " ++ t)
          | None => assoc "Authorization" user
          end
      /\ assoc "Content-Type" st.(st_defaultHeaders)
         = match assoc "Content-Type" user with
           | Some v => Some v | None => Some "application/json" end
      /\ (forall k, k <> "Authorization" -> k <> "Content-Type" ->
            assoc k st.(st_defaultHeaders) = assoc k user)
      /\ st.(st_baseUrl) = strip_trailing_slash sample_config.(cc_baseUrl)
      /\ st.(st_throwOnError) = given_or sample_config.(cc_throwOnError) true
      /\ st.(st_apiToken) = spread_prop sample_config.(cc_apiToken) "").
Proof.
  eexists. split; [reflexivity|].
  apply (Crawl4AI_new_headers http_only sample_config).
  - reflexivity.
  - simpl. constructor; [simpl; intros [H|[]]; discriminate | constructor; [intros []|constructor]].
Defined.

Lemma assoc_obj_delete (k k' : string) (o : list (string * string)) :
  assoc k (obj_delete k' o) = if String.eqb k k' then None else assoc k o.
Proof.
  induction o as [|[k0 v0] o IH]; simpl.
  - destruct (String.eqb k k'); reflexivity.
  - destruct (String.eqb k0 k') eqn:E0; simpl.
    + rewrite IH. apply String.eqb_eq in E0. subst k0.
      destruct (String.eqb k k'); reflexivity.
    + destruct (String.eqb k k0) eqn:E1.
      * apply String.eqb_eq in E1. subst k0. rewrite E0. reflexivity.
      * exact IH.
Qed.

(** X21: after [setApiToken(token)] the client's [Authorization] header
    is ["Bearer <token>"] for a non-empty token and absent (deleted) for
    the empty one; no other header changes, and the stored token is the
    new one. *)
Theorem setApiToken_headers (st : client_state) (token : string) :
  assoc "Authorization" (setApiToken st token).(st_defaultHeaders)
    = (if String.eqb token "" then None else Some ("Bearer " ++ token))
  /\ (forall k, k <> "Authorization" ->
        assoc k (setApiToken st token).(st_defaultHeaders) = assoc k st.(st_defaultHeaders))
  /\ (setApiToken st token).(st_apiToken) = Some token.
Proof.
  unfold setApiToken, with_headers_token. cbn [st_defaultHeaders st_apiToken].
  split; [|split; [|reflexivity]].
  - destruct (String.eqb token ""); [rewrite assoc_obj_delete | rewrite assoc_obj_set];
      reflexivity.
  - intros k Hk. assert (E : String.eqb k "Authorization" = false) by (apply String.eqb_neq, Hk).
    destruct (String.eqb token "");
      [rewrite assoc_obj_delete, E | rewrite assoc_obj_set, E]; reflexivity.
Qed.

Lemma strip_trailing_slash_cons (c : ascii) (r : string) :
  strip_trailing_slash (String c r)
  = match r with
    | EmptyString => if Ascii.eqb c "/" then EmptyString else String c EmptyString
    | _ => String c (strip_trailing_slash r)
    end.
Proof. destruct r; reflexivity. Qed.

Lemma strip_trailing_slash_app (s : string) : strip_trailing_slash (s ++ "/") = s.
Proof.
  induction s as [|c s IH]; [reflexivity|].
  change ((String c s) ++ "/") with (String c (s ++ "/")).
  rewrite strip_trailing_slash_cons. destruct (s ++ "/") eqn:E.
  - destruct s; discriminate.
  - rewrite IH. reflexivity.
Qed.

Lemma strip_trailing_slash_keep (s : string) :
  (forall s', s <> s' ++ "/") -> strip_trailing_slash s = s.
Proof.
  induction s as [|c s IH]; intros H; [reflexivity|].
  destruct s as [|c' s].
  - simpl. destruct (Ascii.eqb c "/") eqn:E; [|reflexivity].
    apply Ascii.eqb_eq in E. subst. exfalso. apply (H ""). reflexivity.
  - change (strip_trailing_slash (String c (String c' s)))
      with (String c (strip_trailing_slash (String c' s))).
    rewrite IH; [reflexivity|]. intros s' Hs. apply (H (String c s')). rewrite Hs. reflexivity.
Qed.

(** X22: the base URL normalisation of the constructor and of
    [setBaseUrl] removes exactly one trailing slash ([".../"] becomes
    ["..."], [".//"] keeps one slash) and leaves a URL without trailing
    slash unchanged; [setBaseUrl] changes nothing else: every other field
    of the client's configuration keeps its value. *)
Theorem setBaseUrl_strip (st : client_state) (s : string) :
  (setBaseUrl st (s ++ "/")).(st_baseUrl) = s
  /\ ((forall s', s <> s' ++ "/") -> (setBaseUrl st s).(st_baseUrl) = s)
  /\ setBaseUrl st s
     = {| st_baseUrl := strip_trailing_slash s; st_apiToken := st.(st_apiToken);
          st_timeout := st.(st_timeout); st_retries := st.(st_retries);
          st_retryDelay := st.(st_retryDelay); st_defaultHeaders := st.(st_defaultHeaders);
          st_throwOnError := st.(st_throwOnError); st_validateStatus := st.(st_validateStatus);
          st_debug := st.(st_debug) |}
  /\ (setBaseUrl st s).(st_apiToken) = st.(st_apiToken)
  /\ (setBaseUrl st s).(st_timeout) = st.(st_timeout)
  /\ (setBaseUrl st s).(st_retries) = st.(st_retries)
  /\ (setBaseUrl st s).(st_retryDelay) = st.(st_retryDelay)
  /\ (setBaseUrl st s).(st_defaultHeaders) = st.(st_defaultHeaders)
  /\ (setBaseUrl st s).(st_throwOnError) = st.(st_throwOnError)
  /\ (setBaseUrl st s).(st_validateStatus) = st.(st_validateStatus)
  /\ (setBaseUrl st s).(st_debug) = st.(st_debug).
Proof.
  unfold setBaseUrl. cbn [st_baseUrl].
  split; [apply strip_trailing_slash_app|]. split; [apply strip_trailing_slash_keep|].
  repeat split.
Qed.
